(** * wsutil/plugins.c: plugin discovery, classification and registration

    A shallow embedding of the plugin engine of [wsutil/plugins.c].

    - The two file-scope globals [plugin_list] and [plugin_types], the
      function-static counter [type_val] of [add_plugin_type] and the
      observable calls to outside collaborators (message reporting, the
      module loader, [g_free]) form the [state] that every routine threads.
    - The singly linked [plugin] chain is a Rocq list: the [next] field is
      the list spine, [NULL] is [[]].
    - Everything the file calls but does not define (GLib's loader, the
      filesystem, path resolution, privileges) is a field of the record
      [env]; the routines are executable once an [env] is given.
    - A type's callback is the boolean it returns for a module handle.
    - [g_free] and [g_module_close] are events of the trace; what a read
      through a freed pointer would give is not modelled. *)

From Stdlib Require Import ZArith List String Ascii Bool Lia FinFun.
Import ListNotations.
Local Open Scope string_scope.
Local Open Scope Z_scope.

(** ** Data model *)

(** [GModule *]: an opaque handle returned by [g_module_open]. *)
Definition GModule := N.

Inductive plugin_load_failure_mode : Type :=
| REPORT_LOAD_FAILURE
| DONT_REPORT_LOAD_FAILURE.

(** [struct _plugin]; [types] is a [guint32] kept in [0, 2^32). *)
Record plugin : Type := mk_plugin {
  handle  : GModule;
  name    : string;
  version : string;
  types   : Z
}.

Definition plugin_check_type_callback : Type := GModule -> bool.

(** [plugin_type]; [type_val] is a [guint]. *)
Record plugin_type : Type := mk_plugin_type {
  type     : string;
  callback : plugin_check_type_callback;
  type_val : Z
}.

(** Calls that leave the file, in the order they happen. *)
Inductive event : Type :=
| ev_report_failure (msg : string)
| ev_report_warning (msg : string)
| ev_plugins_scan_dir (dirname : string)
| ev_g_module_open (filename : string)
| ev_g_module_close (h : GModule)
| ev_g_free_name (s : string)
| ev_g_free_plugin (p : plugin)
| ev_g_free_plugin_type (type_name : string) (val : Z)
| ev_g_slist_free
| ev_description (pname pversion ptypes pfilename : string)
| ev_ws_debug_printf (line : string).

Record state : Type := mk_state {
  plugin_list     : list plugin;
  plugin_types    : list plugin_type;
  static_type_val : Z;
  trace           : list event
}.

(** Both globals start as [NULL], the static counter as 0. *)
Definition initial_state : state :=
  {| plugin_list := []; plugin_types := []; static_type_val := 0; trace := [] |}.

(** ** A small state monad for the routines *)

Definition M (A : Type) : Type := state -> A * state.

Definition ret {A : Type} (a : A) : M A := fun st => (a, st).

Definition bind {A B : Type} (m : M A) (k : A -> M B) : M B :=
  fun st => let (a, st') := m st in k a st'.

Notation "x <- m ;; k" := (bind m (fun x => k))
  (at level 61, m at next level, right associativity).
Notation "m ;;; k" := (bind m (fun _ => k))
  (at level 61, right associativity).

Definition exec {A : Type} (m : M A) (st : state) : state := snd (m st).

(** Reading a global. *)
Definition gets {A : Type} (f : state -> A) : M A := fun st => (f st, st).

Definition emit (e : event) : M unit :=
  fun st => (tt, {| plugin_list := plugin_list st;
                    plugin_types := plugin_types st;
                    static_type_val := static_type_val st;
                    trace := trace st ++ [e] |}).

Definition report_failure (msg : string) : M unit := emit (ev_report_failure msg).
Definition report_warning (msg : string) : M unit := emit (ev_report_warning msg).
Definition g_module_close (h : GModule) : M unit := emit (ev_g_module_close h).

(** A [for]/[while] loop over the entries of a list; a [continue] in the C
    body is the body returning. *)
Fixpoint foreach {A : Type} (l : list A) (body : A -> M unit) : M unit :=
  match l with
  | [] => ret tt
  | x :: rest => body x ;;; foreach rest body
  end.

(** [g_slist_foreach] with a callback that updates the object behind
    [user_data]. *)
Definition g_slist_foreach {A B : Type} (l : list A) (f : A -> B -> B) (user_data : B) : B :=
  fold_left (fun acc x => f x acc) l user_data.

(** ** The type registry *)

Definition guint_wrap (z : Z) : Z := z mod 2 ^ 32.

(** [add_plugin_type]. *)
Definition g_slist_append_type (new_type : plugin_type) : M unit :=
  fun st => (tt, {| plugin_list := plugin_list st;
                    plugin_types := plugin_types st ++ [new_type];
                    static_type_val := static_type_val st;
                    trace := trace st |}).

Definition incr_static_type_val : M unit :=
  fun st => (tt, {| plugin_list := plugin_list st;
                    plugin_types := plugin_types st;
                    static_type_val := guint_wrap (static_type_val st + 1);
                    trace := trace st |}).

Definition add_plugin_type (ty : string) (cb : plugin_check_type_callback) : M unit :=
  tv <- gets static_type_val ;;
  if 32 <=? tv then
    report_failure ("At most 32 plugin types can be supported, so the plugin type '"
                      ++ ty ++ "' won't be supported.")
  else
    let new_type := {| type := ty; callback := cb; type_val := tv |} in
    g_slist_append_type new_type ;;;
    incr_static_type_val.

(** ** The plugin registry *)

(** The walk to the last cell of [add_plugin]. *)
Fixpoint add_plugin_walk (pt_plug : list plugin) (new_plug : plugin) : list plugin :=
  match pt_plug with
  | [] => [new_plug]
  | p :: next => p :: add_plugin_walk next new_plug
  end.

Definition add_plugin (new_plug : plugin) : M unit :=
  fun st => (tt, {| plugin_list := add_plugin_walk (plugin_list st) new_plug;
                    plugin_types := plugin_types st;
                    static_type_val := static_type_val st;
                    trace := trace st |}).

Fixpoint check_if_plugin_exists_from (p : list plugin) (nm : string) : bool :=
  match p with
  | [] => false
  | q :: next => if String.eqb (name q) nm then true
                 else check_if_plugin_exists_from next nm
  end.

Definition check_if_plugin_exists (nm : string) : M bool :=
  p <- gets plugin_list ;;
  ret (check_if_plugin_exists_from p nm).

(** [call_plugin_callback]: [new_plug->types |= 1 << type->type_val]. *)
Definition call_plugin_callback (ty : plugin_type) (new_plug : plugin) : plugin :=
  if callback ty (handle new_plug) then
    {| handle := handle new_plug;
       name := name new_plug;
       version := version new_plug;
       types := guint_wrap (Z.lor (types new_plug) (Z.shiftl 1 (type_val ty))) |}
  else new_plug.

(** ** Collaborators outside the file *)

(** What the file calls but does not define.  A directory that
    [ws_dir_open] can open yields the names [ws_dir_read_name] returns, in
    order; the record is fixed while a routine runs. *)
Record env : Type := mk_env {
  G_MODULE_SUFFIX                   : string;
  G_DIR_SEPARATOR_S                 : string;
  WIN32                             : bool;
  g_file_test_EXISTS                : string -> bool;
  g_file_test_IS_DIR                : string -> bool;
  ws_dir_open                       : string -> option (list string);
  g_module_open                     : string -> option GModule;
  g_module_error                    : string -> string;
  g_module_symbol                   : GModule -> string -> option string;
  g_module_name                     : GModule -> string;
  get_plugins_dir                   : option string;
  running_in_build_directory        : bool;
  test_for_directory                : string -> Z;
  get_plugins_dir_with_version      : string;
  get_plugins_pers_dir_with_version : string;
  started_with_special_privs        : bool
}.

Definition EISDIR : Z := 21.
Definition FILENAME_LEN : nat := 1024.

(** ** C string helpers *)

(** [strrchr(s, c)]: the tail of [s] that starts at the last [c]. *)
Fixpoint strrchr (s : string) (c : ascii) : option string :=
  match s with
  | EmptyString => None
  | String a rest =>
      match strrchr rest c with
      | Some r => Some r
      | None => if Ascii.eqb a c then Some s else None
      end
  end.

(** [p + 1] on a pointer into a string. *)
Definition str_plus1 (s : string) : string :=
  match s with
  | EmptyString => EmptyString
  | String _ rest => rest
  end.

(** [g_snprintf(buf, n, ...)] keeps at most [n - 1] characters. *)
Definition g_snprintf (n : nat) (formatted : string) : string :=
  substring 0 (n - 1) formatted.

(** [strncmp(s, lit, strlen(lit)) == 0]. *)
Definition strncmp_eq (s lit : string) : bool := prefix lit s.

(** ** The directory scanner *)

Section Scanner.

Variable E : env.

Definition when_reporting (mode : plugin_load_failure_mode) (m : M unit) : M unit :=
  match mode with
  | REPORT_LOAD_FAILURE => m
  | DONT_REPORT_LOAD_FAILURE => ret tt
  end.

(** The suffix test of the loop body: [true] when the entry is skipped. *)
Definition not_module_suffix (fname : string) : bool :=
  match strrchr fname "."%char with
  | None => true
  | Some dot => negb (String.eqb (str_plus1 dot) (G_MODULE_SUFFIX E))
  end.

(** The [#if WIN32] exclusion. *)
Definition win32_excluded (fname : string) : bool :=
  WIN32 E && strncmp_eq fname "nordic_ble.dll".

(** The classification pass over a fresh candidate. *)
Definition new_candidate (h : GModule) (fname gp : string) : plugin :=
  {| handle := h; name := fname; version := gp; types := 0 |}.

Definition classify (tys : list plugin_type) (new_plug : plugin) : plugin :=
  g_slist_foreach tys call_plugin_callback new_plug.

(** One iteration of the [while] loop of [plugins_scan_dir]. *)
Definition scan_entry (dirname : string) (mode : plugin_load_failure_mode)
    (fname : string) : M unit :=
  if not_module_suffix fname then ret tt
  else if win32_excluded fname then ret tt
  else
    let filename :=
      g_snprintf FILENAME_LEN (dirname ++ G_DIR_SEPARATOR_S E ++ fname) in
    found <- check_if_plugin_exists fname ;;
    if found then
      when_reporting mode
        (report_warning ("The plugin '" ++ fname ++ "' was found "
                           ++ "in multiple directories." ++ String "010"%char EmptyString))
    else
      emit (ev_g_module_open filename) ;;;
      match g_module_open E filename with
      | None =>
          when_reporting mode
            (report_failure ("Couldn't load module " ++ filename ++ ": "
                               ++ g_module_error E filename))
      | Some h =>
          match g_module_symbol E h "version" with
          | None =>
              report_failure ("The plugin " ++ fname ++ " has no version symbol") ;;;
              g_module_close h
          | Some gp =>
              tys <- gets plugin_types ;;
              let new_plug := classify tys (new_candidate h fname gp) in
              if types new_plug =? 0 then
                when_reporting mode
                  (report_failure ("The plugin '" ++ fname
                                     ++ "' has no registration routines")) ;;;
                g_module_close h ;;;
                emit (ev_g_free_name (name new_plug)) ;;;
                emit (ev_g_free_plugin new_plug)
              else add_plugin new_plug
          end
      end.

(** [plugins_scan_dir]; the call itself is logged. *)
Definition plugins_scan_dir (dirname : string) (mode : plugin_load_failure_mode) : M unit :=
  emit (ev_plugins_scan_dir dirname) ;;;
  if negb (g_file_test_EXISTS E dirname) || negb (g_file_test_IS_DIR E dirname) then ret tt
  else
    match ws_dir_open E dirname with
    | Some entries => foreach entries (scan_entry dirname mode)
    | None => ret tt
    end.

(** ** The discovery orchestrator *)

(** The body of the build-directory loop of [scan_plugins]. *)
Definition scan_build_subdir (plugin_dir : string) (mode : plugin_load_failure_mode)
    (fname : string) : M unit :=
  if String.eqb fname "." || String.eqb fname ".." then ret tt
  else
    let libs := plugin_dir ++ G_DIR_SEPARATOR_S E ++ fname
                  ++ G_DIR_SEPARATOR_S E ++ ".libs" in
    let plugin_dir_path :=
      if negb (test_for_directory E libs =? EISDIR)
      then plugin_dir ++ G_DIR_SEPARATOR_S E ++ fname
      else libs in
    plugins_scan_dir plugin_dir_path mode.

(** The scans of [scan_plugins] before the privilege test. *)
Definition scan_global_dirs (plugin_dir : string) (mode : plugin_load_failure_mode) : M unit :=
  if running_in_build_directory E then
    match ws_dir_open E plugin_dir with
    | Some entries =>
        plugins_scan_dir plugin_dir mode ;;;
        foreach entries (scan_build_subdir plugin_dir mode)
    | None => ret tt
    end
  else plugins_scan_dir (get_plugins_dir_with_version E) mode.

(** [scan_plugins]. *)
Definition scan_plugins (mode : plugin_load_failure_mode) : M unit :=
  head <- gets plugin_list ;;
  match head with
  | [] =>
      match get_plugins_dir E with
      | None => ret tt
      | Some plugin_dir =>
          scan_global_dirs plugin_dir mode ;;;
          if negb (started_with_special_privs E)
          then plugins_scan_dir (get_plugins_pers_dir_with_version E) mode
          else ret tt
      end
  | _ :: _ => ret tt
  end.

(** ** Diagnostics *)

(** [type_callback_info], without the plugin pointer. *)
Definition add_plugin_type_description (pt_plug : plugin) (ty : plugin_type)
    (info : string * string) : string * string :=
  let (tystr, sep) := info in
  if negb (Z.land (types pt_plug) (Z.shiftl 1 (type_val ty)) =? 0)
  then (tystr ++ sep ++ type ty, ", ")
  else (tystr, sep).

Definition describe_plugin (tys : list plugin_type) (pt_plug : plugin) : string :=
  fst (g_slist_foreach tys (add_plugin_type_description pt_plug) ("", "")).

(** [plugins_get_descriptions]; a callback is what it sends out for one
    plugin. *)
Definition plugin_description_callback : Type :=
  string -> string -> string -> string -> event.

Definition plugins_get_descriptions (cb : plugin_description_callback) : M unit :=
  head <- gets plugin_list ;;
  tys <- gets plugin_types ;;
  foreach head
    (fun pt_plug =>
       emit (cb (name pt_plug) (version pt_plug)
               (describe_plugin tys pt_plug)
               (g_module_name E (handle pt_plug)))).

Definition TAB : string := String "009"%char EmptyString.
Definition NL : string := String "010"%char EmptyString.

Definition print_plugin_description (pname pversion description filename : string) : event :=
  ev_ws_debug_printf (pname ++ TAB ++ pversion ++ TAB ++ description ++ TAB ++ filename ++ NL).

Definition plugins_dump_all : M unit :=
  plugins_get_descriptions print_plugin_description.

End Scanner.

(** ** Cleanup *)

(** [plugins_cleanup]: the loop frees each cell's name and the cell, then
    the type records and the list that holds them.  Neither [plugin_list]
    nor [plugin_types] is assigned. *)
Definition free_plugin_type (ty : plugin_type) : M unit :=
  emit (ev_g_free_plugin_type (type ty) (type_val ty)).

Definition plugins_cleanup : M unit :=
  head <- gets plugin_list ;;
  foreach head
    (fun cur => emit (ev_g_free_name (name cur)) ;;; emit (ev_g_free_plugin cur)) ;;;
  tys <- gets plugin_types ;;
  foreach tys free_plugin_type ;;;
  emit ev_g_slist_free.

(** ** The public interface as a whole *)

Inductive api_call : Type :=
| call_add_plugin_type (ty : string) (cb : plugin_check_type_callback)
| call_scan_plugins (E : env) (mode : plugin_load_failure_mode)
| call_plugins_get_descriptions (E : env) (cb : plugin_description_callback)
| call_plugins_dump_all (E : env)
| call_plugins_cleanup.

Definition run_call (c : api_call) : M unit :=
  match c with
  | call_add_plugin_type ty cb => add_plugin_type ty cb
  | call_scan_plugins E mode => scan_plugins E mode
  | call_plugins_get_descriptions E cb => plugins_get_descriptions E cb
  | call_plugins_dump_all E => plugins_dump_all E
  | call_plugins_cleanup => plugins_cleanup
  end.

(** States a process can be in: any sequence of public calls from the
    initial state. *)
Inductive reachable : state -> Prop :=
| reach_init : reachable initial_state
| reach_call (st : state) (c : api_call) :
    reachable st -> reachable (exec (run_call c) st).

(** Registering a batch of types in order. *)
Definition register_all (reqs : list (string * plugin_check_type_callback)) : M unit :=
  foreach reqs (fun r => add_plugin_type (fst r) (snd r)).

(** ** Observations on states and traces *)

Definition with_trace (st : state) (evs : list event) : state :=
  {| plugin_list := plugin_list st;
     plugin_types := plugin_types st;
     static_type_val := static_type_val st;
     trace := trace st ++ evs |}.

Definition is_report (e : event) : bool :=
  match e with
  | ev_report_failure _ | ev_report_warning _ => true
  | _ => false
  end.

(** The failure and warning reports of a trace. *)
Definition reports (evs : list event) : list event := filter is_report evs.

(** The directories handed to [plugins_scan_dir], in call order. *)
Definition scanned_dirs (evs : list event) : list string :=
  flat_map (fun e => match e with ev_plugins_scan_dir d => [d] | _ => [] end) evs.

(** The module handles closed, in call order. *)
Definition closed_handles (evs : list event) : list GModule :=
  flat_map (fun e => match e with ev_g_module_close h => [h] | _ => [] end) evs.

(** The files handed to [g_module_open], in call order. *)
Definition opened_files (evs : list event) : list string :=
  flat_map (fun e => match e with ev_g_module_open f => [f] | _ => [] end) evs.

(** The type registry as [add_plugin_type] builds it: the i-th record
    carries bit index i, the counter equals the number of records, and
    there are at most 32 of them. *)
Definition types_wf (st : state) : Prop :=
  map type_val (plugin_types st)
    = map Z.of_nat (seq 0 (List.length (plugin_types st)))
  /\ static_type_val st = Z.of_nat (List.length (plugin_types st))
  /\ (List.length (plugin_types st) <= 32)%nat.

(** No two cells of the chain carry the same name. *)
Definition unique_names (pl : list plugin) : Prop :=
  forall (i j : nat) (p q : plugin),
    nth_error pl i = Some p -> nth_error pl j = Some q ->
    name p = name q -> i = j.

Local Open Scope list_scope.

(** ** Routines that only append

    Every routine of the scanner reads the two registries, appends cells to
    the plugin chain and events to the trace, and never looks at the trace.
    [appends_only] says so in a form that composes along [bind]. *)

Definition set_trace (st : state) (t : list event) : state :=
  {| plugin_list := plugin_list st;
     plugin_types := plugin_types st;
     static_type_val := static_type_val st;
     trace := t |}.

Definition grow (st : state) (added : list plugin) (t : list event) : state :=
  {| plugin_list := plugin_list st ++ added;
     plugin_types := plugin_types st;
     static_type_val := static_type_val st;
     trace := t |}.

Definition appends_only {A : Type} (m : M A) : Prop :=
  forall st, exists (a : A) (added : list plugin) (evs : list event),
    forall t, m (set_trace st t) = (a, grow st added (t ++ evs)).

(** ** The outcomes of one loop iteration *)

(** The path handed to the loader for an entry. *)
Definition entry_filename (E : env) (dirname fname : string) : string :=
  g_snprintf FILENAME_LEN (dirname ++ G_DIR_SEPARATOR_S E ++ fname)%string.

(** An entry that passes the two name filters. *)
Definition is_candidate (E : env) (fname : string) : bool :=
  negb (not_module_suffix E fname) && negb (win32_excluded E fname).

(** The result of the classification pass for an entry. *)
Definition classified (st : state) (h : GModule) (fname gp : string) : plugin :=
  classify (plugin_types st) (new_candidate h fname gp).

(** The ways one iteration of the scan loop can end. *)
Inductive entry_outcome (E : env) (dirname : string) (mode : plugin_load_failure_mode)
    (fname : string) (st : state) : state -> Prop :=
| oc_filtered :
    is_candidate E fname = false ->
    entry_outcome E dirname mode fname st st
| oc_duplicate :
    is_candidate E fname = true ->
    check_if_plugin_exists_from (plugin_list st) fname = true ->
    entry_outcome E dirname mode fname st
      (with_trace st
         match mode with
         | REPORT_LOAD_FAILURE =>
             [ev_report_warning
                ("The plugin '" ++ fname ++ "' was found in multiple directories." ++ NL)]
         | DONT_REPORT_LOAD_FAILURE => []
         end)
| oc_load_failed :
    is_candidate E fname = true ->
    check_if_plugin_exists_from (plugin_list st) fname = false ->
    g_module_open E (entry_filename E dirname fname) = None ->
    entry_outcome E dirname mode fname st
      (with_trace st
         (ev_g_module_open (entry_filename E dirname fname)
          :: match mode with
             | REPORT_LOAD_FAILURE =>
                 [ev_report_failure
                    ("Couldn't load module " ++ entry_filename E dirname fname ++ ": "
                       ++ g_module_error E (entry_filename E dirname fname))]
             | DONT_REPORT_LOAD_FAILURE => []
             end))
| oc_no_version (h : GModule) :
    is_candidate E fname = true ->
    check_if_plugin_exists_from (plugin_list st) fname = false ->
    g_module_open E (entry_filename E dirname fname) = Some h ->
    g_module_symbol E h "version" = None ->
    entry_outcome E dirname mode fname st
      (with_trace st
         [ev_g_module_open (entry_filename E dirname fname);
          ev_report_failure ("The plugin " ++ fname ++ " has no version symbol");
          ev_g_module_close h])
| oc_no_types (h : GModule) (gp : string) :
    is_candidate E fname = true ->
    check_if_plugin_exists_from (plugin_list st) fname = false ->
    g_module_open E (entry_filename E dirname fname) = Some h ->
    g_module_symbol E h "version" = Some gp ->
    types (classified st h fname gp) = 0 ->
    entry_outcome E dirname mode fname st
      (with_trace st
         (ev_g_module_open (entry_filename E dirname fname)
          :: match mode with
             | REPORT_LOAD_FAILURE =>
                 [ev_report_failure
                    ("The plugin '" ++ fname ++ "' has no registration routines")]
             | DONT_REPORT_LOAD_FAILURE => []
             end
          ++ [ev_g_module_close h;
              ev_g_free_name fname;
              ev_g_free_plugin (classified st h fname gp)]))
| oc_registered (h : GModule) (gp : string) :
    is_candidate E fname = true ->
    check_if_plugin_exists_from (plugin_list st) fname = false ->
    g_module_open E (entry_filename E dirname fname) = Some h ->
    g_module_symbol E h "version" = Some gp ->
    types (classified st h fname gp) <> 0 ->
    entry_outcome E dirname mode fname st
      (grow st [classified st h fname gp]
         (trace st ++ [ev_g_module_open (entry_filename E dirname fname)])).

(** ** The directories of a discovery pass *)

(** The directory [scan_plugins] picks for one entry of a build tree. *)
Definition build_subdir_path (E : env) (plugin_dir fname : string) : string :=
  let libs := (plugin_dir ++ G_DIR_SEPARATOR_S E ++ fname
                 ++ G_DIR_SEPARATOR_S E ++ ".libs")%string in
  if negb (test_for_directory E libs =? EISDIR)
  then (plugin_dir ++ G_DIR_SEPARATOR_S E ++ fname)%string
  else libs.

Definition build_subdir_targets (E : env) (plugin_dir : string)
    (entries : list string) : list string :=
  flat_map
    (fun fname =>
       if String.eqb fname "." || String.eqb fname ".." then []
       else [build_subdir_path E plugin_dir fname])
    entries.

(** The directories scanned before the privilege test. *)
Definition global_scan_list (E : env) (plugin_dir : string) : list string :=
  if running_in_build_directory E then
    match ws_dir_open E plugin_dir with
    | Some entries => plugin_dir :: build_subdir_targets E plugin_dir entries
    | None => []
    end
  else [get_plugins_dir_with_version E].

(** The same collaborators with another personal plugin directory. *)
Definition with_pers_dir (E : env) (d : string) : env :=
  {| G_MODULE_SUFFIX := G_MODULE_SUFFIX E;
     G_DIR_SEPARATOR_S := G_DIR_SEPARATOR_S E;
     WIN32 := WIN32 E;
     g_file_test_EXISTS := g_file_test_EXISTS E;
     g_file_test_IS_DIR := g_file_test_IS_DIR E;
     ws_dir_open := ws_dir_open E;
     g_module_open := g_module_open E;
     g_module_error := g_module_error E;
     g_module_symbol := g_module_symbol E;
     g_module_name := g_module_name E;
     get_plugins_dir := get_plugins_dir E;
     running_in_build_directory := running_in_build_directory E;
     test_for_directory := test_for_directory E;
     get_plugins_dir_with_version := get_plugins_dir_with_version E;
     get_plugins_pers_dir_with_version := d;
     started_with_special_privs := started_with_special_privs E |}.

(** ** Sample installations *)

Fixpoint lookup_path {A : Type} (k : string) (l : list (string * A)) : option A :=
  match l with
  | [] => None
  | (k', v) :: rest => if String.eqb k k' then Some v else lookup_path k rest
  end.

Fixpoint lookup_module {A : Type} (h : GModule) (l : list (GModule * A)) : option A :=
  match l with
  | [] => None
  | (h', v) :: rest => if N.eqb h h' then Some v else lookup_module h rest
  end.

Definition is_some {A : Type} (o : option A) : bool :=
  match o with Some _ => true | None => false end.

(** An installed (not build-tree) layout on a system whose module suffix is
    [so]: [dirs] lists the directories and their entries, [mods] the files
    the loader can open, [vers] the [version] symbol of each module. *)
Definition sample_env (dirs : list (string * list string))
    (mods : list (string * GModule)) (vers : list (GModule * string))
    (privs : bool) : env :=
  {| G_MODULE_SUFFIX := "so";
     G_DIR_SEPARATOR_S := "/";
     WIN32 := false;
     g_file_test_EXISTS := fun d => is_some (lookup_path d dirs);
     g_file_test_IS_DIR := fun d => is_some (lookup_path d dirs);
     ws_dir_open := fun d => lookup_path d dirs;
     g_module_open := fun f => lookup_path f mods;
     g_module_error := fun f => "cannot open shared object file";
     g_module_symbol :=
       fun h sym => if String.eqb sym "version" then lookup_module h vers else None;
     g_module_name := fun h => "";
     get_plugins_dir := Some "/usr/lib/wireshark/plugins";
     running_in_build_directory := false;
     test_for_directory := fun d => if is_some (lookup_path d dirs) then EISDIR else 0;
     get_plugins_dir_with_version := "/usr/lib/wireshark/plugins/2.4";
     get_plugins_pers_dir_with_version := "/home/user/.wireshark/plugins/2.4";
     started_with_special_privs := privs |}.

(** The system directory holds [bar.so], a module without a [version]
    symbol. *)
Definition env_no_version : env :=
  sample_env
    [("/usr/lib/wireshark/plugins/2.4", ["bar.so"])]
    [("/usr/lib/wireshark/plugins/2.4/bar.so", 7%N)]
    []
    true.

(** The system and the personal directory each hold a [foo.so] that
    exports [version = "1.0"]. *)
Definition env_foo_twice : env :=
  sample_env
    [("/usr/lib/wireshark/plugins/2.4", ["foo.so"]);
     ("/home/user/.wireshark/plugins/2.4", ["foo.so"])]
    [("/usr/lib/wireshark/plugins/2.4/foo.so", 7%N);
     ("/home/user/.wireshark/plugins/2.4/foo.so", 8%N)]
    [(7%N, "1.0"); (8%N, "1.0")]
    false.

Definition accept_all : plugin_check_type_callback := fun _ => true.
Definition accept_none : plugin_check_type_callback := fun _ => false.

(** One registered type that accepts every module. *)
Definition st_one_type : state :=
  exec (run_call (call_add_plugin_type "dissector" accept_all)) initial_state.

(** After discovery over [env_foo_twice]. *)
Definition st_foo : state :=
  exec (run_call (call_scan_plugins env_foo_twice REPORT_LOAD_FAILURE)) st_one_type.

(** Thirty-two registration requests. *)
Definition reqs32 : list (string * plugin_check_type_callback) :=
  map (fun _ => ("dissector"%string, accept_all)) (seq 0 32).

Definition st_full : state := exec (register_all reqs32) initial_state.

(** Two registered types, of which only the second accepts a module. *)
Definition st_two_types : state :=
  exec (register_all [("dissector"%string, accept_none); ("wiretap"%string, accept_all)])
    initial_state.

(** One registered type that accepts no module. *)
Definition st_reject_all : state :=
  exec (run_call (call_add_plugin_type "wiretap" accept_none)) initial_state.

(** ** Notions for the further properties *)

(** Whether a character occurs in a string. *)
Fixpoint contains_char (c : ascii) (s : string) : bool :=
  match s with
  | EmptyString => false
  | String a rest => Ascii.eqb a c || contains_char c rest
  end.

(** What a discovery pass over [E] establishes about a cell it appends: the
    name passed both filters and ends in the module suffix, the handle is
    what the loader returned for that name in some directory, the version
    is the module's [version] symbol, and the mask is not zero. *)
Definition from_module_file (E : env) (p : plugin) : Prop :=
  is_candidate E (name p) = true
  /\ (exists base, name p = (base ++ "." ++ G_MODULE_SUFFIX E)%string)
  /\ (exists dirname,
        g_module_open E (entry_filename E dirname (name p)) = Some (handle p))
  /\ g_module_symbol E (handle p) "version" = Some (version p)
  /\ types p <> 0.



(** Whether the bit of a type is set in a plugin's mask. *)
Definition has_type (p : plugin) (ty : plugin_type) : bool :=
  Z.testbit (types p) (type_val ty).

(** A directory name of 1020 characters. *)
Definition long_dirname : string :=
  string_of_list_ascii (repeat "a"%char 1020).

(** The system directory holds [broken.so], which the loader cannot open,
    and [notes.txt]. *)
Definition env_unloadable : env :=
  sample_env
    [("/usr/lib/wireshark/plugins/2.4", ["notes.txt"; "broken.so"])]
    []
    []
    true.

(** A build tree: the plugin directory holds the subdirectories [docsis],
    whose modules are in a [.libs] subdirectory, and [mate]; nothing in it
    can be loaded. *)
Definition env_build_tree : env :=
  {| G_MODULE_SUFFIX := "so";
     G_DIR_SEPARATOR_S := "/";
     WIN32 := false;
     g_file_test_EXISTS := fun d => true;
     g_file_test_IS_DIR := fun d => true;
     ws_dir_open :=
       fun d => if String.eqb d "/build/plugins"
                then Some ["."; ".."; "docsis"; "mate"]%string
                else Some [];
     g_module_open := fun f => None;
     g_module_error := fun f => "";
     g_module_symbol := fun h sym => None;
     g_module_name := fun h => "";
     get_plugins_dir := Some "/build/plugins";
     running_in_build_directory := true;
     test_for_directory :=
       fun d => if String.eqb d "/build/plugins/docsis/.libs" then EISDIR else 0;
     get_plugins_dir_with_version := "/usr/lib/wireshark/plugins/2.4";
     get_plugins_pers_dir_with_version := "/home/user/.wireshark/plugins/2.4";
     started_with_special_privs := false |}.

(** No plugin directory can be found. *)
Definition env_no_plugin_dir : env :=
  {| G_MODULE_SUFFIX := "so";
     G_DIR_SEPARATOR_S := "/";
     WIN32 := false;
     g_file_test_EXISTS := fun d => true;
     g_file_test_IS_DIR := fun d => true;
     ws_dir_open := fun d => Some ["foo.so"]%string;
     g_module_open := fun f => Some 7%N;
     g_module_error := fun f => "";
     g_module_symbol := fun h sym => Some "1.0"%string;
     g_module_name := fun h => "";
     get_plugins_dir := None;
     running_in_build_directory := false;
     test_for_directory := fun d => EISDIR;
     get_plugins_dir_with_version := "/usr/lib/wireshark/plugins/2.4";
     get_plugins_pers_dir_with_version := "/home/user/.wireshark/plugins/2.4";
     started_with_special_privs := false |}.

(** Three registered types; the first and the third accept every module. *)
Definition st_three_types : state :=
  exec (register_all [("dissector"%string, accept_all); ("wiretap"%string, accept_none);
                      ("codec"%string, accept_all)])
    initial_state.

(** Two states that agree on both registries and on the loader calls made
    so far. *)
Definition same_registries (s1 s2 : state) : Prop :=
  plugin_list s1 = plugin_list s2
  /\ plugin_types s1 = plugin_types s2
  /\ opened_files (trace s1) = opened_files (trace s2)
  /\ closed_handles (trace s1) = closed_handles (trace s2).

(** Whether an entry of a directory is a module file that opens, has a
    [version] symbol and is accepted by one of the types [tys]. *)
Definition module_accepted (E : env) (tys : list plugin_type)
    (dirname fname : string) : bool :=
  is_candidate E fname
  && match g_module_open E (entry_filename E dirname fname) with
     | Some h =>
         match g_module_symbol E h "version" with
         | Some _ => existsb (fun ty => callback ty h) tys
         | None => false
         end
     | None => false
     end.

(** The system directory holds a text file, a module no type accepts
    ([bar.so], handle 8) and two modules the type [dissector] accepts. *)
Definition env_mixed : env :=
  sample_env
    [("/usr/lib/wireshark/plugins/2.4", ["README.txt"; "mate.so"; "bar.so"; "docsis.so"])]
    [("/usr/lib/wireshark/plugins/2.4/mate.so", 7%N);
     ("/usr/lib/wireshark/plugins/2.4/bar.so", 8%N);
     ("/usr/lib/wireshark/plugins/2.4/docsis.so", 9%N)]
    [(7%N, "1.0"); (8%N, "1.0"); (9%N, "2.1")]
    true.

(** One registered type that accepts every module but the one of handle
    8. *)
Definition st_picky_type : state :=
  exec (run_call (call_add_plugin_type "dissector" (fun h => negb (N.eqb h 8))))
    initial_state.

(** * Properties *)

(** ** Monad and loop facts *)

Lemma exec_bind {A B : Type} (m : M A) (k : A -> M B) (st : state) :
  exec (bind m k) st = exec (k (fst (m st))) (exec m st).
Proof.
  unfold exec, bind. destruct (m st) as [a st']. reflexivity.
Qed.

Lemma exec_seq (m k : M unit) (st : state) :
  exec (m ;;; k) st = exec k (exec m st).
Proof. apply exec_bind. Qed.

Lemma exec_emit (e : event) (st : state) : exec (emit e) st = with_trace st [e].
Proof. reflexivity. Qed.

Lemma exec_foreach_cons {A : Type} (x : A) (l : list A) (body : A -> M unit) (st : state) :
  exec (foreach (x :: l) body) st = exec (foreach l body) (exec (body x) st).
Proof. simpl. apply exec_seq. Qed.

Lemma exec_foreach_app {A : Type} (l1 l2 : list A) (body : A -> M unit) (st : state) :
  exec (foreach (l1 ++ l2) body) st = exec (foreach l2 body) (exec (foreach l1 body) st).
Proof.
  revert st. induction l1 as [|x l1 IH]; intro st.
  - reflexivity.
  - rewrite <- app_comm_cons, !exec_foreach_cons. apply IH.
Qed.

Lemma with_trace_nil (st : state) : with_trace st [] = st.
Proof. destruct st. unfold with_trace. simpl. rewrite app_nil_r. reflexivity. Qed.

Lemma with_trace_app (st : state) (a b : list event) :
  with_trace (with_trace st a) b = with_trace st (a ++ b).
Proof. unfold with_trace. simpl. rewrite app_assoc. reflexivity. Qed.

(** A loop whose body only emits events. *)
Lemma exec_foreach_emits {A : Type} (l : list A) (body : A -> M unit)
    (out : A -> list event) :
  (forall x st, exec (body x) st = with_trace st (out x)) ->
  forall st, exec (foreach l body) st = with_trace st (flat_map out l).
Proof.
  intro Hbody. induction l as [|x l IH]; intro st.
  - simpl. symmetry. apply with_trace_nil.
  - rewrite exec_foreach_cons, Hbody, IH, with_trace_app. reflexivity.
Qed.

(** ** The plugin chain *)

Lemma add_plugin_walk_app (pl : list plugin) (p : plugin) :
  add_plugin_walk pl p = pl ++ [p].
Proof. induction pl as [|q pl IH]; simpl; [reflexivity | now rewrite IH]. Qed.

Lemma check_if_plugin_exists_from_In (pl : list plugin) (nm : string) :
  check_if_plugin_exists_from pl nm = true <-> In nm (map name pl).
Proof.
  induction pl as [|q pl IH]; simpl.
  - split; [discriminate | tauto].
  - destruct (String.eqb (name q) nm) eqn:Heq.
    + apply String.eqb_eq in Heq. tauto.
    + apply String.eqb_neq in Heq. rewrite IH. tauto.
Qed.

Lemma check_if_plugin_exists_from_not_In (pl : list plugin) (nm : string) :
  check_if_plugin_exists_from pl nm = false <-> ~ In nm (map name pl).
Proof.
  rewrite <- check_if_plugin_exists_from_In.
  destruct (check_if_plugin_exists_from pl nm); split; congruence.
Qed.

Lemma unique_names_NoDup (pl : list plugin) :
  unique_names pl <-> NoDup (map name pl).
Proof.
  unfold unique_names. rewrite NoDup_nth_error. split.
  - intros H i j Hi Heq.
    rewrite List.length_map in Hi.
    rewrite !nth_error_map in Heq.
    destruct (nth_error pl i) as [p|] eqn:Hp.
    2:{ apply nth_error_None in Hp. lia. }
    destruct (nth_error pl j) as [q|] eqn:Hq; simpl in Heq; [|discriminate].
    injection Heq as Heq. eapply H; eauto.
  - intros H i j p q Hp Hq Heq. apply H.
    + rewrite List.length_map. apply nth_error_Some. congruence.
    + rewrite !nth_error_map, Hp, Hq. simpl. congruence.
Qed.

(** ** The type registry *)

Lemma add_plugin_type_accept (ty : string) (cb : plugin_check_type_callback) (st : state) :
  static_type_val st < 32 ->
  exec (add_plugin_type ty cb) st
  = {| plugin_list := plugin_list st;
       plugin_types := plugin_types st
                         ++ [{| type := ty; callback := cb; type_val := static_type_val st |}];
       static_type_val := guint_wrap (static_type_val st + 1);
       trace := trace st |}.
Proof.
  intro H. unfold exec, add_plugin_type, bind, gets.
  destruct (Z.leb_spec 32 (static_type_val st)); [lia | reflexivity].
Qed.

Lemma add_plugin_type_reject (ty : string) (cb : plugin_check_type_callback) (st : state) :
  32 <= static_type_val st ->
  exec (add_plugin_type ty cb) st
  = with_trace st
      [ev_report_failure
         ("At most 32 plugin types can be supported, so the plugin type '"
            ++ ty ++ "' won't be supported.")].
Proof.
  intro H. unfold exec, add_plugin_type, bind, gets.
  destruct (Z.leb_spec 32 (static_type_val st)); [reflexivity | lia].
Qed.

Lemma types_wf_initial : types_wf initial_state.
Proof. repeat split. simpl. lia. Qed.

Lemma types_wf_add_plugin_type (ty : string) (cb : plugin_check_type_callback) (st : state) :
  types_wf st -> types_wf (exec (add_plugin_type ty cb) st).
Proof.
  intros (Hvals & Hctr & Hlen).
  destruct (Z_lt_le_dec (static_type_val st) 32) as [Hlt | Hge].
  - rewrite add_plugin_type_accept by exact Hlt.
    unfold types_wf. simpl.
    rewrite List.length_app, map_app. simpl.
    replace (List.length (plugin_types st) + 1)%nat
      with (S (List.length (plugin_types st))) by lia.
    rewrite seq_S, map_app. simpl.
    repeat split.
    + rewrite Hvals, Hctr. reflexivity.
    + unfold guint_wrap. rewrite Z.mod_small; lia.
    + lia.
  - rewrite add_plugin_type_reject by exact Hge.
    exact (conj Hvals (conj Hctr Hlen)).
Qed.

Lemma types_wf_bounds (st : state) :
  types_wf st -> Forall (fun ty => 0 <= type_val ty < 32) (plugin_types st).
Proof.
  intros (Hvals & _ & Hlen).
  apply Forall_forall. intros ty Hin.
  apply (in_map type_val) in Hin. rewrite Hvals in Hin.
  apply in_map_iff in Hin. destruct Hin as (k & Hk & Hin).
  apply in_seq in Hin. lia.
Qed.

Lemma types_wf_NoDup (st : state) :
  types_wf st -> NoDup (map type_val (plugin_types st)).
Proof.
  intros (Hvals & _ & _). rewrite Hvals.
  apply Injective_map_NoDup.
  - intros a b Hab. lia.
  - apply seq_NoDup.
Qed.

(** ** Classification *)

Lemma guint_wrap_range (z : Z) : 0 <= guint_wrap z < 2 ^ 32.
Proof. unfold guint_wrap. apply Z.mod_pos_bound. lia. Qed.

Lemma testbit_guint32_high (x b : Z) :
  0 <= x < 2 ^ 32 -> 32 <= b -> Z.testbit x b = false.
Proof.
  intros Hx Hb. rewrite <- (Z.mod_small x (2 ^ 32)) by exact Hx.
  apply Z.mod_pow2_bits_high. lia.
Qed.

Lemma testbit_one_shiftl (tv b : Z) :
  0 <= tv -> Z.testbit (Z.shiftl 1 tv) b = (tv =? b).
Proof.
  intro Htv. destruct (Z.ltb_spec b 0) as [Hneg | Hpos].
  - rewrite Z.testbit_neg_r by exact Hneg. symmetry. apply Z.eqb_neq. lia.
  - rewrite Z.shiftl_spec by exact Hpos.
    destruct (Z.eqb_spec tv b) as [-> | Hne].
    + rewrite Z.sub_diag. reflexivity.
    + destruct (Z.ltb_spec b tv).
      * apply Z.testbit_neg_r. lia.
      * replace (b - tv) with (Z.succ (b - tv - 1)) by lia.
        apply (Z.bits_above_log2 1); simpl; lia.
Qed.

Lemma call_plugin_callback_handle (ty : plugin_type) (p : plugin) :
  handle (call_plugin_callback ty p) = handle p.
Proof. unfold call_plugin_callback. destruct (callback ty (handle p)); reflexivity. Qed.

Lemma call_plugin_callback_name (ty : plugin_type) (p : plugin) :
  name (call_plugin_callback ty p) = name p.
Proof. unfold call_plugin_callback. destruct (callback ty (handle p)); reflexivity. Qed.

Lemma call_plugin_callback_range (ty : plugin_type) (p : plugin) :
  0 <= types p < 2 ^ 32 -> 0 <= types (call_plugin_callback ty p) < 2 ^ 32.
Proof.
  intro H. unfold call_plugin_callback.
  destruct (callback ty (handle p)); simpl; [apply guint_wrap_range | exact H].
Qed.

(** One callback sets exactly the bit of its type, and only on [true]. *)
Lemma call_plugin_callback_testbit (ty : plugin_type) (p : plugin) (b : Z) :
  0 <= type_val ty < 32 -> 0 <= types p < 2 ^ 32 ->
  Z.testbit (types (call_plugin_callback ty p)) b
  = Z.testbit (types p) b || (callback ty (handle p) && (type_val ty =? b)).
Proof.
  intros Htv Hp. unfold call_plugin_callback.
  destruct (callback ty (handle p)); simpl.
  2:{ now rewrite orb_false_r. }
  destruct (Z.ltb_spec b 32) as [Hlow | Hhigh].
  - destruct (Z.ltb_spec b 0) as [Hneg | Hpos].
    + rewrite !Z.testbit_neg_r by exact Hneg.
      symmetry. apply Z.eqb_neq. lia.
    + unfold guint_wrap. rewrite Z.mod_pow2_bits_low by lia.
      rewrite Z.lor_spec, testbit_one_shiftl by lia. reflexivity.
  - rewrite (testbit_guint32_high _ b (guint_wrap_range _) Hhigh).
    rewrite (testbit_guint32_high _ b Hp Hhigh).
    symmetry. apply Z.eqb_neq. lia.
Qed.

Lemma classify_cons (ty : plugin_type) (tys : list plugin_type) (p : plugin) :
  classify (ty :: tys) p = classify tys (call_plugin_callback ty p).
Proof. reflexivity. Qed.

Lemma classify_handle (tys : list plugin_type) (p : plugin) :
  handle (classify tys p) = handle p.
Proof.
  revert p. induction tys as [|ty tys IH]; intro p; [reflexivity|].
  rewrite classify_cons, IH. apply call_plugin_callback_handle.
Qed.

Lemma classify_name (tys : list plugin_type) (p : plugin) :
  name (classify tys p) = name p.
Proof.
  revert p. induction tys as [|ty tys IH]; intro p; [reflexivity|].
  rewrite classify_cons, IH. apply call_plugin_callback_name.
Qed.

Lemma classify_version (tys : list plugin_type) (p : plugin) :
  version (classify tys p) = version p.
Proof.
  revert p. induction tys as [|ty tys IH]; intro p; [reflexivity|].
  rewrite classify_cons, IH. unfold call_plugin_callback.
  destruct (callback ty (handle p)); reflexivity.
Qed.

(** The mask after the pass: the bits it had, plus the bit of every type
    whose callback accepted the module. *)
Lemma classify_testbit (tys : list plugin_type) (p : plugin) (b : Z) :
  Forall (fun ty => 0 <= type_val ty < 32) tys ->
  0 <= types p < 2 ^ 32 ->
  Z.testbit (types (classify tys p)) b
  = Z.testbit (types p) b
    || existsb (fun ty => callback ty (handle p) && (type_val ty =? b)) tys.
Proof.
  intro Hall. revert p. induction Hall as [|ty tys Hty Hall IH]; intros p Hp.
  - simpl. now rewrite orb_false_r.
  - rewrite classify_cons, IH by (apply call_plugin_callback_range; exact Hp).
    rewrite call_plugin_callback_testbit by assumption.
    rewrite call_plugin_callback_handle. simpl.
    now rewrite orb_assoc.
Qed.

Lemma existsb_unique_bit (tys : list plugin_type) (ty : plugin_type) (h : GModule) :
  NoDup (map type_val tys) -> In ty tys ->
  existsb (fun t => callback t h && (type_val t =? type_val ty)) tys = callback ty h.
Proof.
  induction tys as [|t tys IH]; simpl; intros Hnd Hin; [contradiction|].
  inversion Hnd as [|? ? Hnotin Hnd']; subst.
  destruct Hin as [-> | Hin].
  - rewrite Z.eqb_refl, andb_true_r.
    destruct (callback ty h); [reflexivity|]. simpl.
    apply not_true_is_false. intro Hex.
    apply existsb_exists in Hex. destruct Hex as (t' & Hin' & Ht').
    apply andb_prop in Ht'. destruct Ht' as [_ Heq]. apply Z.eqb_eq in Heq.
    apply Hnotin. rewrite <- Heq. now apply in_map.
  - rewrite IH by assumption.
    destruct (Z.eqb_spec (type_val t) (type_val ty)) as [Heq | Hne].
    + exfalso. apply Hnotin. rewrite Heq. now apply in_map.
    + now rewrite andb_false_r.
Qed.

Lemma existsb_unassigned_bit (tys : list plugin_type) (h : GModule) (b : Z) :
  (forall ty, In ty tys -> type_val ty <> b) ->
  existsb (fun t => callback t h && (type_val t =? b)) tys = false.
Proof.
  intro Hfree. apply not_true_is_false. intro Hex.
  apply existsb_exists in Hex. destruct Hex as (t & Hin & Ht).
  apply andb_prop in Ht. destruct Ht as [_ Heq]. apply Z.eqb_eq in Heq.
  exact (Hfree t Hin Heq).
Qed.

(** The mask of a candidate, bit by bit. *)
Lemma classified_testbit (st : state) (h : GModule) (fname gp : string) :
  types_wf st ->
  forall b,
    Z.testbit (types (classified st h fname gp)) b
    = existsb (fun ty => callback ty h && (type_val ty =? b)) (plugin_types st).
Proof.
  intros Hwf b. unfold classified.
  rewrite classify_testbit; [ | apply types_wf_bounds; exact Hwf | simpl; lia ].
  simpl. now rewrite Z.testbit_0_l.
Qed.

(** The mask is zero exactly when no registered type accepted the module. *)
Lemma classified_zero_iff (st : state) (h : GModule) (fname gp : string) :
  types_wf st ->
  types (classified st h fname gp) = 0
  <-> forall ty, In ty (plugin_types st) -> callback ty h = false.
Proof.
  intro Hwf. split.
  - intros Hzero ty Hin.
    rewrite <- (existsb_unique_bit (plugin_types st) ty h
                  (types_wf_NoDup st Hwf) Hin).
    rewrite <- (classified_testbit st h fname gp Hwf), Hzero.
    apply Z.testbit_0_l.
  - intro Hnone. apply Z.bits_inj_0. intro b.
    rewrite (classified_testbit st h fname gp Hwf).
    apply not_true_is_false. intro Hex.
    apply existsb_exists in Hex. destruct Hex as (ty & Hin & Hty).
    apply andb_prop in Hty. destruct Hty as [Hcb _].
    rewrite (Hnone ty Hin) in Hcb. discriminate.
Qed.

(** ** Routines that only append *)

Lemma set_trace_self (st : state) : set_trace st (trace st) = st.
Proof. destruct st. reflexivity. Qed.

Lemma appends_only_ret {A : Type} (a : A) : appends_only (ret a).
Proof.
  intro st. exists a, [], []. intro t. unfold ret, grow, set_trace. simpl.
  now rewrite !app_nil_r.
Qed.

Lemma appends_only_emit (e : event) : appends_only (emit e).
Proof.
  intro st. exists tt, [], [e]. intro t. unfold emit, grow, set_trace. simpl.
  now rewrite app_nil_r.
Qed.

Lemma appends_only_gets {A : Type} (f : state -> A) :
  (forall st t, f (set_trace st t) = f st) -> appends_only (gets f).
Proof.
  intros Hf st. exists (f st), [], []. intro t. unfold gets. rewrite Hf.
  unfold grow, set_trace. simpl. now rewrite !app_nil_r.
Qed.

Lemma appends_only_add_plugin (p : plugin) : appends_only (add_plugin p).
Proof.
  intro st. exists tt, [p], []. intro t. unfold add_plugin, grow, set_trace. simpl.
  now rewrite add_plugin_walk_app, app_nil_r.
Qed.

Lemma appends_only_bind {A B : Type} (m : M A) (k : A -> M B) :
  appends_only m -> (forall a, appends_only (k a)) -> appends_only (bind m k).
Proof.
  intros Hm Hk st.
  destruct (Hm st) as (a & added & evs & Hrun).
  destruct (Hk a (grow st added [])) as (b & added' & evs' & Hrun').
  exists b, (added ++ added'), (evs ++ evs'). intro t.
  unfold bind. rewrite Hrun.
  change (grow st added (t ++ evs)) with (set_trace (grow st added []) (t ++ evs)).
  rewrite Hrun'. unfold grow. simpl. now rewrite !app_assoc.
Qed.

Lemma appends_only_foreach {A : Type} (l : list A) (body : A -> M unit) :
  (forall x, appends_only (body x)) -> appends_only (foreach l body).
Proof.
  intro Hbody. induction l as [|x l IH]; simpl.
  - apply appends_only_ret.
  - apply appends_only_bind; [apply Hbody | intros _; exact IH].
Qed.

Lemma appends_only_when_reporting (mode : plugin_load_failure_mode) (m : M unit) :
  appends_only m -> appends_only (when_reporting mode m).
Proof. intro H. destruct mode; [exact H | apply appends_only_ret]. Qed.

Create HintDb scanner.

#[local] Hint Resolve appends_only_ret appends_only_emit appends_only_add_plugin
  appends_only_when_reporting : scanner.

Ltac appends_step :=
  first
    [ apply appends_only_bind; [|intro]
    | apply appends_only_gets; reflexivity
    | apply appends_only_foreach; intro
    | progress auto with scanner ].

Lemma appends_only_scan_entry (E : env) (dirname : string)
    (mode : plugin_load_failure_mode) (fname : string) :
  appends_only (scan_entry E dirname mode fname).
Proof.
  unfold scan_entry, check_if_plugin_exists, report_failure, report_warning,
    g_module_close.
  destruct (not_module_suffix E fname); [auto with scanner|].
  destruct (win32_excluded E fname); [auto with scanner|].
  repeat appends_step.
  - match goal with |- appends_only (if ?c then _ else _) => destruct c end;
      auto with scanner.
    apply appends_only_bind; [auto with scanner | intros _].
    destruct (g_module_open E _) as [h|]; [|auto with scanner].
    destruct (g_module_symbol E h "version") as [gp|]; repeat appends_step.
    match goal with |- appends_only (if ?c then _ else _) => destruct c end;
      repeat appends_step.
Qed.

Lemma appends_only_plugins_scan_dir (E : env) (dirname : string)
    (mode : plugin_load_failure_mode) :
  appends_only (plugins_scan_dir E dirname mode).
Proof.
  unfold plugins_scan_dir.
  apply appends_only_bind; [auto with scanner | intros _].
  destruct (negb (g_file_test_EXISTS E dirname) || negb (g_file_test_IS_DIR E dirname));
    [auto with scanner|].
  destruct (ws_dir_open E dirname) as [entries|]; [|auto with scanner].
  apply appends_only_foreach. intro. apply appends_only_scan_entry.
Qed.

Lemma appends_only_scan_build_subdir (E : env) (plugin_dir : string)
    (mode : plugin_load_failure_mode) (fname : string) :
  appends_only (scan_build_subdir E plugin_dir mode fname).
Proof.
  unfold scan_build_subdir.
  destruct (String.eqb fname "." || String.eqb fname ".."); [auto with scanner|].
  apply appends_only_plugins_scan_dir.
Qed.

Lemma appends_only_scan_global_dirs (E : env) (plugin_dir : string)
    (mode : plugin_load_failure_mode) :
  appends_only (scan_global_dirs E plugin_dir mode).
Proof.
  unfold scan_global_dirs.
  destruct (running_in_build_directory E); [|apply appends_only_plugins_scan_dir].
  destruct (ws_dir_open E plugin_dir) as [entries|]; [|auto with scanner].
  apply appends_only_bind; [apply appends_only_plugins_scan_dir | intros _].
  apply appends_only_foreach. intro. apply appends_only_scan_build_subdir.
Qed.

Lemma appends_only_scan_plugins (E : env) (mode : plugin_load_failure_mode) :
  appends_only (scan_plugins E mode).
Proof.
  unfold scan_plugins.
  apply appends_only_bind; [apply appends_only_gets; reflexivity | intros head].
  destruct head; [|auto with scanner].
  destruct (get_plugins_dir E) as [plugin_dir|]; [|auto with scanner].
  apply appends_only_bind; [apply appends_only_scan_global_dirs | intros _].
  destruct (negb (started_with_special_privs E));
    [apply appends_only_plugins_scan_dir | auto with scanner].
Qed.

Lemma appends_only_plugins_get_descriptions (E : env) (cb : plugin_description_callback) :
  appends_only (plugins_get_descriptions E cb).
Proof. unfold plugins_get_descriptions. repeat appends_step. Qed.

Lemma appends_only_plugins_cleanup : appends_only plugins_cleanup.
Proof. unfold plugins_cleanup, free_plugin_type. repeat appends_step. Qed.

(** What [appends_only] gives for one run. *)
Lemma appends_only_exec {A : Type} (m : M A) (st : state) :
  appends_only m ->
  exists added evs,
    exec m st = grow st added (trace st ++ evs)
    /\ forall t, exec m (set_trace st t) = grow st added (t ++ evs).
Proof.
  intro Hm. destruct (Hm st) as (a & added & evs & Hrun).
  exists added, evs. split.
  - unfold exec. rewrite <- (set_trace_self st) at 1. now rewrite Hrun.
  - intro t. unfold exec. now rewrite Hrun.
Qed.

Lemma appends_only_types {A : Type} (m : M A) (st : state) :
  appends_only m ->
  plugin_types (exec m st) = plugin_types st
  /\ static_type_val (exec m st) = static_type_val st.
Proof.
  intro Hm. destruct (appends_only_exec m st Hm) as (added & evs & Hrun & _).
  rewrite Hrun. split; reflexivity.
Qed.

(** The outcome does not depend on the trace the run starts from. *)
Lemma appends_only_registry {A : Type} (m : M A) (st1 st2 : state) :
  appends_only m ->
  plugin_list st1 = plugin_list st2 ->
  plugin_types st1 = plugin_types st2 ->
  static_type_val st1 = static_type_val st2 ->
  plugin_list (exec m st1) = plugin_list (exec m st2).
Proof.
  intros Hm Hpl Hty Hctr.
  destruct (appends_only_exec m st1 Hm) as (added & evs & Hrun & Hany).
  rewrite Hrun.
  assert (Hst2 : st2 = set_trace st1 (trace st2)).
  { destruct st1, st2; simpl in *; subst; reflexivity. }
  rewrite Hst2 at 1. rewrite Hany. reflexivity.
Qed.

(** ** One directory entry *)

Lemma exec_ret {A : Type} (a : A) (st : state) : exec (ret a) st = st.
Proof. reflexivity. Qed.

Lemma exec_gets_bind {A B : Type} (f : state -> A) (k : A -> M B) (st : state) :
  exec (bind (gets f) k) st = exec (k (f st)) st.
Proof. reflexivity. Qed.

Lemma exec_bind_value {A B : Type} (m : M A) (k : A -> M B) (st st' : state) (a : A) :
  m st = (a, st') -> exec (bind m k) st = exec (k a) st'.
Proof. intro H. unfold exec, bind. now rewrite H. Qed.

Lemma run_check_if_plugin_exists (nm : string) (st : state) :
  check_if_plugin_exists nm st = (check_if_plugin_exists_from (plugin_list st) nm, st).
Proof. reflexivity. Qed.

Lemma exec_add_plugin (p : plugin) (st : state) :
  exec (add_plugin p) st = grow st [p] (trace st).
Proof. unfold exec, add_plugin, grow. simpl. now rewrite add_plugin_walk_app. Qed.

Ltac run_events :=
  unfold report_failure, report_warning, g_module_close, when_reporting;
  repeat (rewrite ?exec_seq, ?exec_emit, ?exec_ret, ?with_trace_app; simpl app).

Lemma scan_entry_outcome (E : env) (dirname : string) (mode : plugin_load_failure_mode)
    (fname : string) (st : state) :
  entry_outcome E dirname mode fname st (exec (scan_entry E dirname mode fname) st).
Proof.
  unfold scan_entry.
  destruct (not_module_suffix E fname) eqn:Hsuffix.
  { apply oc_filtered. unfold is_candidate. now rewrite Hsuffix. }
  destruct (win32_excluded E fname) eqn:Hexcl.
  { apply oc_filtered. unfold is_candidate. now rewrite Hsuffix, Hexcl. }
  assert (Hcand : is_candidate E fname = true).
  { unfold is_candidate. now rewrite Hsuffix, Hexcl. }
  fold (entry_filename E dirname fname).
  rewrite (exec_bind_value _ _ _ _ _ (run_check_if_plugin_exists fname st)).
  destruct (check_if_plugin_exists_from (plugin_list st) fname) eqn:Hdup.
  { pose proof (oc_duplicate E dirname mode fname st Hcand Hdup) as Hoc.
    destruct mode; run_events; [exact Hoc|].
    now rewrite with_trace_nil in Hoc. }
  rewrite exec_seq, exec_emit.
  destruct (g_module_open E (entry_filename E dirname fname)) as [h|] eqn:Hopen.
  2:{ pose proof (oc_load_failed E dirname mode fname st Hcand Hdup Hopen) as Hoc.
      destruct mode; run_events; exact Hoc. }
  destruct (g_module_symbol E h "version") as [gp|] eqn:Hsym.
  2:{ run_events. apply (oc_no_version E dirname mode fname st h Hcand Hdup Hopen Hsym). }
  rewrite exec_gets_bind.
  change (plugin_types (with_trace st [ev_g_module_open (entry_filename E dirname fname)]))
    with (plugin_types st).
  change (classify (plugin_types st) (new_candidate h fname gp))
    with (classified st h fname gp).
  destruct (Z.eqb_spec (types (classified st h fname gp)) 0) as [Hzero | Hnz].
  - assert (Hname : name (classified st h fname gp) = fname)
      by apply classify_name.
    pose proof (oc_no_types E dirname mode fname st h gp Hcand Hdup Hopen Hsym Hzero)
      as Hoc.
    rewrite Hname.
    destruct mode; run_events; exact Hoc.
  - rewrite exec_add_plugin.
    apply (oc_registered E dirname mode fname st h gp Hcand Hdup Hopen Hsym Hnz).
Qed.

(** The exact result in each situation, read off [scan_entry_outcome]. *)

Ltac same_module :=
  repeat match goal with
         | H1 : ?x = Some ?a, H2 : ?x = Some ?b |- _ =>
             first [ constr_eq a b; fail 1
                   | assert (a = b) by congruence; subst b ]
         end.

Ltac outcome_cases Hoc :=
  destruct Hoc; try congruence; same_module;
  first [ congruence | contradiction | reflexivity ].

Lemma scan_entry_filtered (E : env) (dirname : string) (mode : plugin_load_failure_mode)
    (fname : string) (st : state) :
  is_candidate E fname = false ->
  exec (scan_entry E dirname mode fname) st = st.
Proof.
  intro Hcand.
  pose proof (scan_entry_outcome E dirname mode fname st) as Hoc.
  remember (exec (scan_entry E dirname mode fname) st) as st' eqn:Hst'.
  outcome_cases Hoc.
Qed.

Lemma scan_entry_duplicate (E : env) (dirname : string) (mode : plugin_load_failure_mode)
    (fname : string) (st : state) :
  is_candidate E fname = true ->
  check_if_plugin_exists_from (plugin_list st) fname = true ->
  exec (scan_entry E dirname mode fname) st
  = with_trace st
      match mode with
      | REPORT_LOAD_FAILURE =>
          [ev_report_warning
             ("The plugin '" ++ fname ++ "' was found in multiple directories." ++ NL)]
      | DONT_REPORT_LOAD_FAILURE => []
      end.
Proof.
  intros Hcand Hdup.
  pose proof (scan_entry_outcome E dirname mode fname st) as Hoc.
  remember (exec (scan_entry E dirname mode fname) st) as st' eqn:Hst'.
  outcome_cases Hoc.
Qed.

Lemma scan_entry_no_version (E : env) (dirname : string) (mode : plugin_load_failure_mode)
    (fname : string) (st : state) (h : GModule) :
  is_candidate E fname = true ->
  check_if_plugin_exists_from (plugin_list st) fname = false ->
  g_module_open E (entry_filename E dirname fname) = Some h ->
  g_module_symbol E h "version" = None ->
  exec (scan_entry E dirname mode fname) st
  = with_trace st
      [ev_g_module_open (entry_filename E dirname fname);
       ev_report_failure ("The plugin " ++ fname ++ " has no version symbol");
       ev_g_module_close h].
Proof.
  intros Hcand Hdup Hopen Hsym.
  pose proof (scan_entry_outcome E dirname mode fname st) as Hoc.
  remember (exec (scan_entry E dirname mode fname) st) as st' eqn:Hst'.
  outcome_cases Hoc.
Qed.

Lemma scan_entry_no_types (E : env) (dirname : string) (mode : plugin_load_failure_mode)
    (fname : string) (st : state) (h : GModule) (gp : string) :
  is_candidate E fname = true ->
  check_if_plugin_exists_from (plugin_list st) fname = false ->
  g_module_open E (entry_filename E dirname fname) = Some h ->
  g_module_symbol E h "version" = Some gp ->
  types (classified st h fname gp) = 0 ->
  exec (scan_entry E dirname mode fname) st
  = with_trace st
      (ev_g_module_open (entry_filename E dirname fname)
       :: match mode with
          | REPORT_LOAD_FAILURE =>
              [ev_report_failure
                 ("The plugin '" ++ fname ++ "' has no registration routines")]
          | DONT_REPORT_LOAD_FAILURE => []
          end
       ++ [ev_g_module_close h;
           ev_g_free_name fname;
           ev_g_free_plugin (classified st h fname gp)]).
Proof.
  intros Hcand Hdup Hopen Hsym Hzero.
  pose proof (scan_entry_outcome E dirname mode fname st) as Hoc.
  remember (exec (scan_entry E dirname mode fname) st) as st' eqn:Hst'.
  outcome_cases Hoc.
Qed.

Lemma scan_entry_registered (E : env) (dirname : string) (mode : plugin_load_failure_mode)
    (fname : string) (st : state) (h : GModule) (gp : string) :
  is_candidate E fname = true ->
  check_if_plugin_exists_from (plugin_list st) fname = false ->
  g_module_open E (entry_filename E dirname fname) = Some h ->
  g_module_symbol E h "version" = Some gp ->
  types (classified st h fname gp) <> 0 ->
  exec (scan_entry E dirname mode fname) st
  = grow st [classified st h fname gp]
      (trace st ++ [ev_g_module_open (entry_filename E dirname fname)]).
Proof.
  intros Hcand Hdup Hopen Hsym Hnz.
  pose proof (scan_entry_outcome E dirname mode fname st) as Hoc.
  remember (exec (scan_entry E dirname mode fname) st) as st' eqn:Hst'.
  outcome_cases Hoc.
Qed.

(** ** Loop invariants of the scanner *)

Lemma foreach_invariant {A : Type} (P : state -> Prop) (l : list A) (body : A -> M unit) :
  (forall x st, P st -> P (exec (body x) st)) ->
  forall st, P st -> P (exec (foreach l body) st).
Proof.
  intro Hbody. induction l as [|x l IH]; intros st HP.
  - exact HP.
  - rewrite exec_foreach_cons. apply IH, Hbody, HP.
Qed.

Section ScannerInvariant.

Variable P : state -> Prop.
Hypothesis P_emit : forall st e, P st -> P (exec (emit e) st).
Hypothesis P_scan_entry :
  forall E dirname mode fname st, P st -> P (exec (scan_entry E dirname mode fname) st).

Lemma plugins_scan_dir_invariant (E : env) (dirname : string)
    (mode : plugin_load_failure_mode) (st : state) :
  P st -> P (exec (plugins_scan_dir E dirname mode) st).
Proof.
  intro HP. unfold plugins_scan_dir. rewrite exec_seq.
  destruct (negb (g_file_test_EXISTS E dirname) || negb (g_file_test_IS_DIR E dirname)).
  - rewrite exec_ret. apply P_emit, HP.
  - destruct (ws_dir_open E dirname) as [entries|].
    + apply foreach_invariant; [intros; now apply P_scan_entry | apply P_emit, HP].
    + rewrite exec_ret. apply P_emit, HP.
Qed.

Lemma scan_build_subdir_invariant (E : env) (plugin_dir : string)
    (mode : plugin_load_failure_mode) (fname : string) (st : state) :
  P st -> P (exec (scan_build_subdir E plugin_dir mode fname) st).
Proof.
  intro HP. unfold scan_build_subdir.
  destruct (String.eqb fname "." || String.eqb fname ".."); [exact HP|].
  apply plugins_scan_dir_invariant, HP.
Qed.

Lemma scan_global_dirs_invariant (E : env) (plugin_dir : string)
    (mode : plugin_load_failure_mode) (st : state) :
  P st -> P (exec (scan_global_dirs E plugin_dir mode) st).
Proof.
  intro HP. unfold scan_global_dirs.
  destruct (running_in_build_directory E); [|apply plugins_scan_dir_invariant, HP].
  destruct (ws_dir_open E plugin_dir) as [entries|]; [|exact HP].
  rewrite exec_seq. apply foreach_invariant.
  - intros. now apply scan_build_subdir_invariant.
  - apply plugins_scan_dir_invariant, HP.
Qed.

Lemma scan_plugins_invariant (E : env) (mode : plugin_load_failure_mode) (st : state) :
  P st -> P (exec (scan_plugins E mode) st).
Proof.
  intro HP. unfold scan_plugins. rewrite exec_gets_bind.
  destruct (plugin_list st); [|exact HP].
  destruct (get_plugins_dir E) as [plugin_dir|]; [|exact HP].
  rewrite exec_seq.
  destruct (negb (started_with_special_privs E)).
  - apply plugins_scan_dir_invariant, scan_global_dirs_invariant, HP.
  - rewrite exec_ret. apply scan_global_dirs_invariant, HP.
Qed.

End ScannerInvariant.

(** ** Routines that leave the plugin chain alone *)

Lemma exec_plugins_cleanup (st : state) :
  exec plugins_cleanup st
  = with_trace st
      (flat_map (fun cur => [ev_g_free_name (name cur); ev_g_free_plugin cur])
         (plugin_list st)
       ++ flat_map (fun ty => [ev_g_free_plugin_type (type ty) (type_val ty)])
            (plugin_types st)
       ++ [ev_g_slist_free]).
Proof.
  unfold plugins_cleanup. rewrite exec_gets_bind, exec_seq.
  rewrite (exec_foreach_emits (plugin_list st) _
             (fun cur => [ev_g_free_name (name cur); ev_g_free_plugin cur])).
  2:{ intros x s. now rewrite exec_seq, !exec_emit, with_trace_app. }
  rewrite exec_gets_bind, exec_seq.
  rewrite (exec_foreach_emits _ free_plugin_type
             (fun ty => [ev_g_free_plugin_type (type ty) (type_val ty)])).
  2:{ intros x s. apply exec_emit. }
  rewrite exec_emit, !with_trace_app. reflexivity.
Qed.

Lemma exec_plugins_get_descriptions (E : env) (cb : plugin_description_callback)
    (st : state) :
  exec (plugins_get_descriptions E cb) st
  = with_trace st
      (flat_map
         (fun pt_plug =>
            [cb (name pt_plug) (version pt_plug)
               (describe_plugin (plugin_types st) pt_plug)
               (g_module_name E (handle pt_plug))])
         (plugin_list st)).
Proof.
  unfold plugins_get_descriptions. rewrite !exec_gets_bind.
  apply exec_foreach_emits. intros x s. apply exec_emit.
Qed.

Lemma add_plugin_type_plugin_list (ty : string) (cb : plugin_check_type_callback)
    (st : state) :
  plugin_list (exec (add_plugin_type ty cb) st) = plugin_list st.
Proof.
  destruct (Z_lt_le_dec (static_type_val st) 32) as [Hlt | Hge].
  - now rewrite add_plugin_type_accept.
  - now rewrite add_plugin_type_reject.
Qed.

(** ** Uniqueness of names *)

Lemma NoDup_snoc {A : Type} (l : list A) (x : A) :
  NoDup l -> ~ In x l -> NoDup (l ++ [x]).
Proof.
  intros Hnd Hnotin. induction Hnd as [|y l Hy Hnd IH]; simpl.
  - constructor; [intros [] | constructor].
  - constructor.
    + rewrite in_app_iff. simpl in *. intuition congruence.
    + apply IH. simpl in Hnotin. tauto.
Qed.

Lemma scan_entry_NoDup (E : env) (dirname : string) (mode : plugin_load_failure_mode)
    (fname : string) (st : state) :
  NoDup (map name (plugin_list st)) ->
  NoDup (map name (plugin_list (exec (scan_entry E dirname mode fname) st))).
Proof.
  intro Hnd.
  destruct (scan_entry_outcome E dirname mode fname st); try exact Hnd.
  simpl. rewrite map_app. simpl. apply NoDup_snoc; [exact Hnd|].
  unfold classified. rewrite classify_name. simpl.
  now apply check_if_plugin_exists_from_not_In.
Qed.

Lemma scan_plugins_NoDup (E : env) (mode : plugin_load_failure_mode) (st : state) :
  NoDup (map name (plugin_list st)) ->
  NoDup (map name (plugin_list (exec (scan_plugins E mode) st))).
Proof.
  apply (scan_plugins_invariant (fun s => NoDup (map name (plugin_list s)))).
  - intros s e H. exact H.
  - intros. now apply scan_entry_NoDup.
Qed.

Lemma plugins_scan_dir_NoDup (E : env) (dirname : string)
    (mode : plugin_load_failure_mode) (st : state) :
  NoDup (map name (plugin_list st)) ->
  NoDup (map name (plugin_list (exec (plugins_scan_dir E dirname mode) st))).
Proof.
  apply (plugins_scan_dir_invariant (fun s => NoDup (map name (plugin_list s)))).
  - intros s e H. exact H.
  - intros. now apply scan_entry_NoDup.
Qed.

Lemma run_call_NoDup (c : api_call) (st : state) :
  NoDup (map name (plugin_list st)) ->
  NoDup (map name (plugin_list (exec (run_call c) st))).
Proof.
  intro Hnd. destruct c as [ty cb | E mode | E cb | E |]; simpl.
  - now rewrite add_plugin_type_plugin_list.
  - now apply scan_plugins_NoDup.
  - now rewrite exec_plugins_get_descriptions.
  - unfold plugins_dump_all. now rewrite exec_plugins_get_descriptions.
  - now rewrite exec_plugins_cleanup.
Qed.

Lemma reachable_NoDup (st : state) :
  reachable st -> NoDup (map name (plugin_list st)).
Proof.
  induction 1 as [|st c Hreach IH].
  - constructor.
  - now apply run_call_NoDup.
Qed.

(** ** The type registry in reachable states *)

Lemma run_call_types_wf (c : api_call) (st : state) :
  types_wf st -> types_wf (exec (run_call c) st).
Proof.
  intro Hwf. destruct c as [ty cb | E mode | E cb | E |]; simpl.
  - now apply types_wf_add_plugin_type.
  - destruct (appends_only_types (scan_plugins E mode) st
                (appends_only_scan_plugins E mode)) as [Hty Hctr].
    unfold types_wf. now rewrite Hty, Hctr.
  - now rewrite exec_plugins_get_descriptions.
  - unfold plugins_dump_all. now rewrite exec_plugins_get_descriptions.
  - now rewrite exec_plugins_cleanup.
Qed.

Lemma reachable_types_wf (st : state) : reachable st -> types_wf st.
Proof.
  induction 1 as [|st c Hreach IH].
  - apply types_wf_initial.
  - now apply run_call_types_wf.
Qed.

Lemma reachable_register_all (reqs : list (string * plugin_check_type_callback))
    (st : state) :
  reachable st -> reachable (exec (register_all reqs) st).
Proof.
  unfold register_all. apply foreach_invariant.
  intros r s Hs. exact (reach_call s (call_add_plugin_type (fst r) (snd r)) Hs).
Qed.

Lemma register_all_when_full (more : list (string * plugin_check_type_callback))
    (st : state) :
  32 <= static_type_val st ->
  plugin_types (exec (register_all more) st) = plugin_types st
  /\ static_type_val (exec (register_all more) st) = static_type_val st
  /\ plugin_list (exec (register_all more) st) = plugin_list st.
Proof.
  intro Hfull. unfold register_all.
  apply (foreach_invariant
           (fun s => plugin_types s = plugin_types st
                     /\ static_type_val s = static_type_val st
                     /\ plugin_list s = plugin_list st)).
  - intros r s (Hty & Hctr & Hpl).
    rewrite add_plugin_type_reject by lia. simpl. auto.
  - auto.
Qed.

(** ** Which directories a discovery pass scans *)

Lemma scanned_dirs_app (a b : list event) :
  scanned_dirs (a ++ b) = scanned_dirs a ++ scanned_dirs b.
Proof. apply flat_map_app. Qed.

Lemma opened_files_app (a b : list event) :
  opened_files (a ++ b) = opened_files a ++ opened_files b.
Proof. apply flat_map_app. Qed.

Lemma closed_handles_app (a b : list event) :
  closed_handles (a ++ b) = closed_handles a ++ closed_handles b.
Proof. apply flat_map_app. Qed.

Lemma scan_entry_scanned_dirs (E : env) (dirname : string)
    (mode : plugin_load_failure_mode) (fname : string) (st : state) :
  scanned_dirs (trace (exec (scan_entry E dirname mode fname) st))
  = scanned_dirs (trace st).
Proof.
  destruct (scan_entry_outcome E dirname mode fname st);
    try reflexivity; simpl; rewrite scanned_dirs_app;
    destruct mode; simpl; now rewrite app_nil_r.
Qed.

Lemma plugins_scan_dir_scanned_dirs (E : env) (dirname : string)
    (mode : plugin_load_failure_mode) (st : state) :
  scanned_dirs (trace (exec (plugins_scan_dir E dirname mode) st))
  = scanned_dirs (trace st) ++ [dirname].
Proof.
  unfold plugins_scan_dir. rewrite exec_seq.
  assert (Hhead : scanned_dirs (trace (exec (emit (ev_plugins_scan_dir dirname)) st))
                  = scanned_dirs (trace st) ++ [dirname]).
  { rewrite exec_emit. simpl. now rewrite scanned_dirs_app. }
  destruct (negb (g_file_test_EXISTS E dirname) || negb (g_file_test_IS_DIR E dirname));
    [exact Hhead|].
  destruct (ws_dir_open E dirname) as [entries|]; [|exact Hhead].
  apply (foreach_invariant
           (fun s => scanned_dirs (trace s) = scanned_dirs (trace st) ++ [dirname]));
    [|exact Hhead].
  intros x s Hs. now rewrite scan_entry_scanned_dirs.
Qed.

Lemma build_loop_scanned_dirs (E : env) (plugin_dir : string)
    (mode : plugin_load_failure_mode) (entries : list string) (st : state) :
  scanned_dirs (trace (exec (foreach entries (scan_build_subdir E plugin_dir mode)) st))
  = scanned_dirs (trace st) ++ build_subdir_targets E plugin_dir entries.
Proof.
  revert st. induction entries as [|fname entries IH]; intro st.
  - simpl. now rewrite app_nil_r.
  - rewrite exec_foreach_cons, IH. unfold build_subdir_targets. simpl.
    unfold scan_build_subdir.
    destruct (String.eqb fname "." || String.eqb fname ".."); [reflexivity|].
    fold (build_subdir_path E plugin_dir fname).
    rewrite plugins_scan_dir_scanned_dirs, <- app_assoc. reflexivity.
Qed.

Lemma scan_global_dirs_scanned_dirs (E : env) (plugin_dir : string)
    (mode : plugin_load_failure_mode) (st : state) :
  scanned_dirs (trace (exec (scan_global_dirs E plugin_dir mode) st))
  = scanned_dirs (trace st) ++ global_scan_list E plugin_dir.
Proof.
  unfold scan_global_dirs, global_scan_list.
  destruct (running_in_build_directory E); [|apply plugins_scan_dir_scanned_dirs].
  destruct (ws_dir_open E plugin_dir) as [entries|].
  - rewrite exec_seq, build_loop_scanned_dirs, plugins_scan_dir_scanned_dirs.
    now rewrite <- app_assoc.
  - rewrite exec_ret. now rewrite app_nil_r.
Qed.

(** The directories one call of [scan_plugins] hands to the scanner. *)
Lemma scan_plugins_scanned_dirs (E : env) (mode : plugin_load_failure_mode) (st : state) :
  scanned_dirs (trace (exec (scan_plugins E mode) st))
  = scanned_dirs (trace st)
    ++ match plugin_list st, get_plugins_dir E with
       | [], Some plugin_dir =>
           global_scan_list E plugin_dir
           ++ (if started_with_special_privs E then []
               else [get_plugins_pers_dir_with_version E])
       | _, _ => []
       end.
Proof.
  unfold scan_plugins. rewrite exec_gets_bind.
  destruct (plugin_list st); [|now rewrite exec_ret, app_nil_r].
  destruct (get_plugins_dir E) as [plugin_dir|]; [|now rewrite exec_ret, app_nil_r].
  rewrite exec_seq.
  destruct (started_with_special_privs E); simpl negb; cbv iota.
  - rewrite exec_ret, scan_global_dirs_scanned_dirs. now rewrite app_nil_r.
  - rewrite plugins_scan_dir_scanned_dirs, scan_global_dirs_scanned_dirs.
    now rewrite <- app_assoc.
Qed.

(** ** Discovery on a non-empty registry *)

Lemma scan_plugins_nonempty (E : env) (mode : plugin_load_failure_mode) (st : state) :
  plugin_list st <> [] -> exec (scan_plugins E mode) st = st.
Proof.
  intro Hne. unfold scan_plugins. rewrite exec_gets_bind.
  destruct (plugin_list st); [contradiction | reflexivity].
Qed.

Lemma scan_plugins_twice (E : env) (mode : plugin_load_failure_mode) (st : state) :
  plugin_list (exec (scan_plugins E mode) (exec (scan_plugins E mode) st))
  = plugin_list (exec (scan_plugins E mode) st).
Proof.
  destruct (plugin_list st) as [|q before] eqn:Hbefore.
  2:{ now rewrite !(scan_plugins_nonempty E mode st) by congruence. }
  destruct (plugin_list (exec (scan_plugins E mode) st)) as [|p after] eqn:Hafter.
  - transitivity (plugin_list (exec (scan_plugins E mode) st)); [|exact Hafter].
    destruct (appends_only_types (scan_plugins E mode) st
                (appends_only_scan_plugins E mode)) as [Hty Hctr].
    apply appends_only_registry;
      [apply appends_only_scan_plugins | congruence | exact Hty | exact Hctr].
  - rewrite scan_plugins_nonempty by congruence. exact Hafter.
Qed.

(** * The claims *)

(** ** C1 *)

(** C1, as the code has it: a candidate that opens but exports no
    [version] symbol is closed and skipped, the registry is left as it
    was, and the failure "has no version symbol" is reported in either
    reporting mode: the events of the iteration are the same for
    [REPORT_LOAD_FAILURE] and [DONT_REPORT_LOAD_FAILURE]. *)
Theorem missing_version_closed_and_reported (E : env) (dirname : string)
    (mode : plugin_load_failure_mode) (fname : string) (st : state) (h : GModule) :
  is_candidate E fname = true ->
  check_if_plugin_exists_from (plugin_list st) fname = false ->
  g_module_open E (entry_filename E dirname fname) = Some h ->
  g_module_symbol E h "version" = None ->
  let st' := exec (scan_entry E dirname mode fname) st in
  plugin_list st' = plugin_list st
  /\ trace st'
     = trace st
       ++ [ev_g_module_open (entry_filename E dirname fname);
           ev_report_failure ("The plugin " ++ fname ++ " has no version symbol");
           ev_g_module_close h].
Proof.
  intros Hcand Hdup Hopen Hsym st'. subst st'.
  rewrite (scan_entry_no_version E dirname mode fname st h Hcand Hdup Hopen Hsym).
  split; reflexivity.
Qed.

Lemma missing_version_closed_and_reported_witness :
  let E := env_no_version in
  let d := "/usr/lib/wireshark/plugins/2.4"%string in
  let st' := exec (scan_entry E d DONT_REPORT_LOAD_FAILURE "bar.so") initial_state in
  plugin_list st' = []
  /\ trace st'
     = [ev_g_module_open "/usr/lib/wireshark/plugins/2.4/bar.so";
        ev_report_failure "The plugin bar.so has no version symbol";
        ev_g_module_close 7%N].
Proof.
  exact (missing_version_closed_and_reported env_no_version
           "/usr/lib/wireshark/plugins/2.4" DONT_REPORT_LOAD_FAILURE "bar.so"
           initial_state 7%N eq_refl eq_refl eq_refl eq_refl).
Defined.

(** C1, counterexample to the claim as stated: scanning, in silent mode, a
    directory whose only entry [bar.so] opens but has no [version] symbol
    emits one failure report. *)
Lemma missing_version_reported_in_silent_mode :
  g_module_open env_no_version "/usr/lib/wireshark/plugins/2.4/bar.so" = Some 7%N
  /\ g_module_symbol env_no_version 7%N "version" = None
  /\ reports
       (trace (exec (plugins_scan_dir env_no_version "/usr/lib/wireshark/plugins/2.4"
                       DONT_REPORT_LOAD_FAILURE) initial_state))
     = [ev_report_failure "The plugin bar.so has no version symbol"]
  /\ reports
       (trace (exec (plugins_scan_dir env_no_version "/usr/lib/wireshark/plugins/2.4"
                       DONT_REPORT_LOAD_FAILURE) initial_state))
     <> [].
Proof. repeat split. discriminate. Qed.

(** ** C2 *)

(** C2, as the code has it: [plugins_cleanup] frees the name and the
    record of every registered plugin, in chain order, then every type
    record and the list holding them; it calls [g_module_close] on no
    handle, and assigns neither global. *)
Theorem plugins_cleanup_frees_memory_only (st : state) :
  exec plugins_cleanup st
  = with_trace st
      (flat_map (fun cur => [ev_g_free_name (name cur); ev_g_free_plugin cur])
         (plugin_list st)
       ++ flat_map (fun ty => [ev_g_free_plugin_type (type ty) (type_val ty)])
            (plugin_types st)
       ++ [ev_g_slist_free])
  /\ closed_handles (trace (exec plugins_cleanup st)) = closed_handles (trace st).
Proof.
  split; [apply exec_plugins_cleanup|].
  rewrite exec_plugins_cleanup. simpl. rewrite closed_handles_app.
  rewrite <- app_nil_r. f_equal.
  rewrite !closed_handles_app.
  assert (H1 : forall pl : list plugin,
             closed_handles
               (flat_map (fun cur => [ev_g_free_name (name cur); ev_g_free_plugin cur]) pl)
             = []).
  { induction pl as [|p pl IH]; simpl; [reflexivity | exact IH]. }
  assert (H2 : forall tys : list plugin_type,
             closed_handles
               (flat_map (fun ty => [ev_g_free_plugin_type (type ty) (type_val ty)]) tys)
             = []).
  { induction tys as [|t tys IH]; simpl; [reflexivity | exact IH]. }
  now rewrite H1, H2.
Qed.

(** C2, counterexample to the claim as stated: after discovery registered
    [foo.so] with module handle 7, cleanup closes no handle at all. *)
Lemma plugins_cleanup_leaves_handle_open :
  map handle (plugin_list st_foo) = [7%N]
  /\ ~ In 7%N (closed_handles (trace (exec plugins_cleanup st_foo))).
Proof. split; [reflexivity | intros []]. Qed.

(** ** C3 *)

(** C3, the code at the failing input: a first discovery pass that
    registers nothing leaves [plugin_list] at [NULL], so a second call of
    [scan_plugins] runs the whole pass again: the directory is scanned
    twice, the module opened twice and the failure reported twice. *)
Theorem scan_plugins_rescans_after_empty_pass :
  let once := exec (scan_plugins env_no_version REPORT_LOAD_FAILURE) initial_state in
  let twice := exec (scan_plugins env_no_version REPORT_LOAD_FAILURE) once in
  plugin_list once = []
  /\ scanned_dirs (trace once) = ["/usr/lib/wireshark/plugins/2.4"%string]
  /\ scanned_dirs (trace twice)
     = ["/usr/lib/wireshark/plugins/2.4"%string; "/usr/lib/wireshark/plugins/2.4"%string]
  /\ opened_files (trace twice)
     = ["/usr/lib/wireshark/plugins/2.4/bar.so"%string;
        "/usr/lib/wireshark/plugins/2.4/bar.so"%string]
  /\ List.length (reports (trace twice)) = 2%nat.
Proof. repeat split. Qed.

(** ** C4 *)

(** C4: in any state a process can reach in which 32 types are
    registered, a call of [add_plugin_type] reports the failure and changes
    nothing else (same type records in the same order, same counter, same
    plugin chain), and so does any number of further calls. *)
Theorem add_plugin_type_rejected_after_32 (st : state) (ty : string)
    (cb : plugin_check_type_callback)
    (more : list (string * plugin_check_type_callback)) :
  reachable st ->
  List.length (plugin_types st) = 32%nat ->
  exec (add_plugin_type ty cb) st
  = with_trace st
      [ev_report_failure
         ("At most 32 plugin types can be supported, so the plugin type '"
            ++ ty ++ "' won't be supported.")]
  /\ plugin_types (exec (add_plugin_type ty cb) st) = plugin_types st
  /\ plugin_types (exec (register_all more) st) = plugin_types st
  /\ plugin_types (exec (add_plugin_type ty cb) (exec (register_all more) st))
     = plugin_types st.
Proof.
  intros Hreach Hlen.
  destruct (reachable_types_wf st Hreach) as (_ & Hctr & _).
  assert (Hfull : 32 <= static_type_val st) by (rewrite Hctr, Hlen; simpl; lia).
  destruct (register_all_when_full more st Hfull) as (Hty & Hctr' & _).
  rewrite add_plugin_type_reject by exact Hfull.
  repeat split; try assumption.
  rewrite add_plugin_type_reject by (rewrite Hctr'; exact Hfull).
  exact Hty.
Qed.

Lemma add_plugin_type_rejected_after_32_witness :
  List.length (plugin_types st_full) = 32%nat
  /\ map type_val (plugin_types st_full) = map Z.of_nat (seq 0 32)
  /\ exec (add_plugin_type "wiretap" accept_all) st_full
     = with_trace st_full
         [ev_report_failure
            "At most 32 plugin types can be supported, so the plugin type 'wiretap' won't be supported."]
  /\ plugin_types (exec (add_plugin_type "wiretap" accept_all) st_full)
     = plugin_types st_full.
Proof.
  pose proof (add_plugin_type_rejected_after_32 st_full "wiretap" accept_all []
                (reachable_register_all reqs32 initial_state reach_init) eq_refl)
    as (Hrej & Hsame & _).
  repeat split; assumption.
Defined.

(** ** C5 *)

(** C5: in every state a process can reach, an iteration of the scan loop
    of [plugins_scan_dir] over a module file that is not registered yet,
    opens to the handle [h] and has a version symbol builds one candidate
    record for [h] and either appends it to the plugin chain (mask not
    zero) or frees it (mask zero); in that record the bit at the bit index
    of each registered type equals what that type's callback returned on
    [h], every bit that is no registered type's index is clear, and so a
    bit is set exactly when the type with that index accepted the module. *)
Theorem classification_mask_sound (E : env) (dirname : string)
    (mode : plugin_load_failure_mode) (fname : string) (st : state)
    (h : GModule) (gp : string) :
  reachable st ->
  is_candidate E fname = true ->
  check_if_plugin_exists_from (plugin_list st) fname = false ->
  g_module_open E (entry_filename E dirname fname) = Some h ->
  g_module_symbol E h "version" = Some gp ->
  let st' := exec (scan_entry E dirname mode fname) st in
  exists new_plug : plugin,
    handle new_plug = h /\ name new_plug = fname /\ version new_plug = gp
    /\ plugin_types st' = plugin_types st
    /\ ((types new_plug <> 0
         /\ plugin_list st' = plugin_list st ++ [new_plug]
         /\ trace st' = trace st ++ [ev_g_module_open (entry_filename E dirname fname)])
        \/ (types new_plug = 0
            /\ plugin_list st' = plugin_list st
            /\ exists evs, trace st' = trace st ++ evs ++ [ev_g_free_plugin new_plug]))
    /\ (forall ty, In ty (plugin_types st) ->
          Z.testbit (types new_plug) (type_val ty) = callback ty h)
    /\ (forall b, (forall ty, In ty (plugin_types st) -> type_val ty <> b) ->
          Z.testbit (types new_plug) b = false)
    /\ (forall b, Z.testbit (types new_plug) b = true <->
          exists ty, In ty (plugin_types st) /\ type_val ty = b /\ callback ty h = true).
Proof.
  intros Hreach Hcand Hdup Hopen Hsym st'. subst st'.
  apply reachable_types_wf in Hreach.
  pose proof (classified_testbit st h fname gp Hreach) as Hbit.
  exists (classified st h fname gp).
  split; [apply classify_handle|].
  split; [apply classify_name|].
  split; [apply classify_version|].
  split.
  { apply (appends_only_types (scan_entry E dirname mode fname) st
             (appends_only_scan_entry E dirname mode fname)). }
  split.
  { destruct (Z.eq_dec (types (classified st h fname gp)) 0) as [Hzero | Hnz].
    - right.
      rewrite (scan_entry_no_types E dirname mode fname st h gp
                 Hcand Hdup Hopen Hsym Hzero).
      split; [exact Hzero|]. split; [reflexivity|].
      exists (ev_g_module_open (entry_filename E dirname fname)
              :: match mode with
                 | REPORT_LOAD_FAILURE =>
                     [ev_report_failure
                        ("The plugin '" ++ fname ++ "' has no registration routines")]
                 | DONT_REPORT_LOAD_FAILURE => []
                 end
              ++ [ev_g_module_close h; ev_g_free_name fname]).
      simpl. destruct mode; reflexivity.
    - left.
      rewrite (scan_entry_registered E dirname mode fname st h gp
                 Hcand Hdup Hopen Hsym Hnz).
      split; [exact Hnz|]. split; reflexivity. }
  split; [|split].
  - intros ty Hin. rewrite Hbit.
    apply existsb_unique_bit; [apply types_wf_NoDup; exact Hreach | exact Hin].
  - intros b Hfree. rewrite Hbit. now apply existsb_unassigned_bit.
  - intro b. rewrite Hbit, existsb_exists. split.
    + intros (ty & Hin & Hty). apply andb_prop in Hty. destruct Hty as [Hcb Heq].
      apply Z.eqb_eq in Heq. exists ty. auto.
    + intros (ty & Hin & Heq & Hcb). exists ty. split; [exact Hin|].
      rewrite Hcb. simpl. now apply Z.eqb_eq.
Qed.

Lemma classification_mask_sound_witness :
  plugin_list
    (exec (scan_entry env_foo_twice "/usr/lib/wireshark/plugins/2.4"
             DONT_REPORT_LOAD_FAILURE "foo.so") st_two_types)
  = [{| handle := 7%N; name := "foo.so"; version := "1.0"; types := 2 |}]
  /\ exists new_plug : plugin,
       plugin_list
         (exec (scan_entry env_foo_twice "/usr/lib/wireshark/plugins/2.4"
                  DONT_REPORT_LOAD_FAILURE "foo.so") st_two_types)
       = plugin_list st_two_types ++ [new_plug]
       /\ forall ty, In ty (plugin_types st_two_types) ->
            Z.testbit (types new_plug) (type_val ty) = callback ty 7%N.
Proof.
  split; [reflexivity|].
  destruct (classification_mask_sound env_foo_twice "/usr/lib/wireshark/plugins/2.4"
              DONT_REPORT_LOAD_FAILURE "foo.so" st_two_types 7%N "1.0"
              (reachable_register_all _ initial_state reach_init)
              eq_refl eq_refl eq_refl eq_refl)
    as (new_plug & _ & _ & _ & _ & Hcase & Hbits & _).
  exists new_plug. split; [|exact Hbits].
  destruct Hcase as [(_ & Hkept & _) | (_ & Hdropped & _)]; [exact Hkept|].
  discriminate Hdropped.
Defined.

(** ** C6 *)

(** C6: in every state a process can reach, no two cells of the plugin
    chain carry the same name; and an entry whose name is already in the
    chain leaves the chain as it is and is not handed to the loader,
    whatever directory it is found in; when it passes the name filters, the
    iteration emits the duplicate warning in [REPORT_LOAD_FAILURE] mode and
    nothing in [DONT_REPORT_LOAD_FAILURE] mode. *)
Theorem registry_names_unique (st : state) (E : env) (dirname : string)
    (mode : plugin_load_failure_mode) (fname : string) :
  reachable st ->
  unique_names (plugin_list st)
  /\ unique_names (plugin_list (exec (scan_plugins E mode) st))
  /\ (In fname (map name (plugin_list st)) ->
      let st' := exec (scan_entry E dirname mode fname) st in
      plugin_list st' = plugin_list st
      /\ opened_files (trace st') = opened_files (trace st)
      /\ (is_candidate E fname = true ->
          st' = with_trace st
                  match mode with
                  | REPORT_LOAD_FAILURE =>
                      [ev_report_warning
                         ("The plugin '" ++ fname
                            ++ "' was found in multiple directories." ++ NL)]
                  | DONT_REPORT_LOAD_FAILURE => []
                  end)).
Proof.
  intro Hreach. split; [|split].
  - apply unique_names_NoDup, reachable_NoDup, Hreach.
  - apply unique_names_NoDup, scan_plugins_NoDup, reachable_NoDup, Hreach.
  - intros Hin st'. subst st'.
    apply check_if_plugin_exists_from_In in Hin.
    destruct (is_candidate E fname) eqn:Hcand.
    + rewrite (scan_entry_duplicate E dirname mode fname st Hcand Hin).
      repeat split. simpl. rewrite opened_files_app.
      destruct mode; simpl; now rewrite app_nil_r.
    + rewrite (scan_entry_filtered E dirname mode fname st Hcand).
      repeat split. discriminate.
Qed.

Lemma registry_names_unique_witness :
  map name (plugin_list st_foo) = ["foo.so"%string]
  /\ reports (trace st_foo)
     = [ev_report_warning ("The plugin 'foo.so' was found in multiple directories." ++ NL)]
  /\ unique_names (plugin_list st_foo)
  /\ exec (scan_entry env_foo_twice "/opt/plugins" REPORT_LOAD_FAILURE "foo.so") st_foo
     = with_trace st_foo
         [ev_report_warning
            ("The plugin 'foo.so' was found in multiple directories." ++ NL)].
Proof.
  pose proof (registry_names_unique st_foo env_foo_twice "/opt/plugins"
                REPORT_LOAD_FAILURE "foo.so"
                (reach_call _ (call_scan_plugins env_foo_twice REPORT_LOAD_FAILURE)
                   (reach_call _ (call_add_plugin_type "dissector" accept_all) reach_init)))
    as (Huniq & _ & Hskip).
  split; [reflexivity|]. split; [reflexivity|]. split; [exact Huniq|].
  apply Hskip; [left; reflexivity | reflexivity].
Defined.

(** ** C7 *)

(** C7: a candidate whose mask is zero after the classification pass is
    not appended: the iteration leaves both registries as they were, closes
    the module handle and frees the candidate's name and record (and
    reports "no registration routines" in [REPORT_LOAD_FAILURE] mode
    only). *)
Theorem zero_mask_candidate_discarded (E : env) (dirname : string)
    (mode : plugin_load_failure_mode) (fname : string) (st : state)
    (h : GModule) (gp : string) :
  is_candidate E fname = true ->
  check_if_plugin_exists_from (plugin_list st) fname = false ->
  g_module_open E (entry_filename E dirname fname) = Some h ->
  g_module_symbol E h "version" = Some gp ->
  types (classified st h fname gp) = 0 ->
  let st' := exec (scan_entry E dirname mode fname) st in
  plugin_list st' = plugin_list st
  /\ plugin_types st' = plugin_types st
  /\ trace st'
     = trace st
       ++ ev_g_module_open (entry_filename E dirname fname)
          :: match mode with
             | REPORT_LOAD_FAILURE =>
                 [ev_report_failure
                    ("The plugin '" ++ fname ++ "' has no registration routines")]
             | DONT_REPORT_LOAD_FAILURE => []
             end
          ++ [ev_g_module_close h;
              ev_g_free_name fname;
              ev_g_free_plugin (classified st h fname gp)]
  /\ closed_handles (trace st') = closed_handles (trace st) ++ [h].
Proof.
  intros Hcand Hdup Hopen Hsym Hzero st'. subst st'.
  rewrite (scan_entry_no_types E dirname mode fname st h gp Hcand Hdup Hopen Hsym Hzero).
  repeat split. simpl. rewrite closed_handles_app. f_equal.
  destruct mode; reflexivity.
Qed.

Lemma zero_mask_candidate_discarded_witness :
  let st' := exec (scan_entry env_foo_twice "/usr/lib/wireshark/plugins/2.4"
                     DONT_REPORT_LOAD_FAILURE "foo.so") st_reject_all in
  plugin_list st' = []
  /\ trace st'
     = [ev_g_module_open "/usr/lib/wireshark/plugins/2.4/foo.so";
        ev_g_module_close 7%N;
        ev_g_free_name "foo.so";
        ev_g_free_plugin {| handle := 7%N; name := "foo.so"; version := "1.0"; types := 0 |}].
Proof.
  pose proof (zero_mask_candidate_discarded env_foo_twice
                "/usr/lib/wireshark/plugins/2.4" DONT_REPORT_LOAD_FAILURE "foo.so"
                st_reject_all 7%N "1.0" eq_refl eq_refl eq_refl eq_refl eq_refl)
    as (Hpl & _ & Htr & _).
  split; [exact Hpl | exact Htr].
Defined.

(** ** C8 *)

(** C8: when the process was started with special privileges, the
    directories a call of [scan_plugins] hands to [plugins_scan_dir] are
    those of the global phase only (none when the registry is not empty or
    the plugin directory is not found), whatever the state and the contents
    of any directory; the global phase and the whole call are the same for
    every value of the personal plugin directory. *)
Theorem personal_dir_not_scanned_when_privileged (E : env)
    (mode : plugin_load_failure_mode) (st : state) :
  started_with_special_privs E = true ->
  scanned_dirs (trace (exec (scan_plugins E mode) st))
  = scanned_dirs (trace st)
    ++ match plugin_list st, get_plugins_dir E with
       | [], Some plugin_dir => global_scan_list E plugin_dir
       | _, _ => []
       end
  /\ (forall d plugin_dir,
        global_scan_list (with_pers_dir E d) plugin_dir = global_scan_list E plugin_dir)
  /\ (forall d,
        exec (scan_plugins (with_pers_dir E d) mode) st = exec (scan_plugins E mode) st).
Proof.
  intro Hpriv. split; [|split].
  - rewrite scan_plugins_scanned_dirs, Hpriv.
    destruct (plugin_list st); [|reflexivity].
    destruct (get_plugins_dir E); [|reflexivity].
    now rewrite app_nil_r.
  - reflexivity.
  - intro d. unfold scan_plugins. rewrite !exec_gets_bind.
    destruct (plugin_list st); [|reflexivity].
    simpl get_plugins_dir.
    destruct (get_plugins_dir E) as [plugin_dir|]; [|reflexivity].
    rewrite !exec_seq. simpl started_with_special_privs. rewrite Hpriv.
    reflexivity.
Qed.

Lemma personal_dir_not_scanned_when_privileged_witness :
  scanned_dirs
    (trace (exec (scan_plugins env_no_version REPORT_LOAD_FAILURE) initial_state))
  = ["/usr/lib/wireshark/plugins/2.4"%string].
Proof.
  exact (proj1 (personal_dir_not_scanned_when_privileged env_no_version
                  REPORT_LOAD_FAILURE initial_state eq_refl)).
Defined.

(** ** C9 *)

(** C9: with the same collaborators and mode, the plugin chain after two
    successive calls of [scan_plugins] is the chain after one call (same
    cells, same order), and the type registry is that of the start. *)
Theorem scan_plugins_idempotent (E : env) (mode : plugin_load_failure_mode) (st : state) :
  plugin_list (exec (scan_plugins E mode) (exec (scan_plugins E mode) st))
  = plugin_list (exec (scan_plugins E mode) st)
  /\ plugin_types (exec (scan_plugins E mode) (exec (scan_plugins E mode) st))
     = plugin_types st.
Proof.
  split; [apply scan_plugins_twice|].
  destruct (appends_only_types (scan_plugins E mode) (exec (scan_plugins E mode) st)
              (appends_only_scan_plugins E mode)) as [Hty _].
  destruct (appends_only_types (scan_plugins E mode) st
              (appends_only_scan_plugins E mode)) as [Hty' _].
  congruence.
Qed.

(** ** C10 *)

Lemma run_call_plugin_list_grows (c : api_call) (st : state) :
  exists added, plugin_list (exec (run_call c) st) = plugin_list st ++ added.
Proof.
  destruct c as [ty cb | E mode | E cb | E |]; simpl.
  - exists []. now rewrite add_plugin_type_plugin_list, app_nil_r.
  - destruct (appends_only_exec (scan_plugins E mode) st
                (appends_only_scan_plugins E mode)) as (added & evs & Hrun & _).
    exists added. now rewrite Hrun.
  - exists []. now rewrite exec_plugins_get_descriptions, app_nil_r.
  - exists []. unfold plugins_dump_all.
    now rewrite exec_plugins_get_descriptions, app_nil_r.
  - exists []. now rewrite exec_plugins_cleanup, app_nil_r.
Qed.

Lemma run_call_plugin_types_grow (c : api_call) (st : state) :
  exists added, plugin_types (exec (run_call c) st) = plugin_types st ++ added.
Proof.
  destruct c as [ty cb | E mode | E cb | E |]; simpl.
  - destruct (Z_lt_le_dec (static_type_val st) 32) as [Hlt | Hge].
    + rewrite add_plugin_type_accept by exact Hlt. simpl. eauto.
    + rewrite add_plugin_type_reject by exact Hge. exists []. simpl.
      now rewrite app_nil_r.
  - destruct (appends_only_types (scan_plugins E mode) st
                (appends_only_scan_plugins E mode)) as [Hty _].
    exists []. now rewrite Hty, app_nil_r.
  - exists []. now rewrite exec_plugins_get_descriptions, app_nil_r.
  - exists []. unfold plugins_dump_all.
    now rewrite exec_plugins_get_descriptions, app_nil_r.
  - exists []. now rewrite exec_plugins_cleanup, app_nil_r.
Qed.

(** C10: [plugins_cleanup] leaves [plugin_list] and [plugin_types] (and
    the static counter) holding what they held; no call of the public
    interface turns a non-empty [plugin_list] or [plugin_types] into an
    empty one; and a [scan_plugins] call after the cleanup of a non-empty
    registry changes nothing: no directory is scanned. *)
Theorem plugins_cleanup_keeps_heads (st : state) (c : api_call) (E : env)
    (mode : plugin_load_failure_mode) :
  plugin_list (exec plugins_cleanup st) = plugin_list st
  /\ plugin_types (exec plugins_cleanup st) = plugin_types st
  /\ static_type_val (exec plugins_cleanup st) = static_type_val st
  /\ (plugin_list st <> [] -> plugin_list (exec (run_call c) st) <> [])
  /\ (plugin_types st <> [] -> plugin_types (exec (run_call c) st) <> [])
  /\ (plugin_list st <> [] ->
      exec (scan_plugins E mode) (exec plugins_cleanup st) = exec plugins_cleanup st).
Proof.
  rewrite exec_plugins_cleanup.
  split; [reflexivity|]. split; [reflexivity|]. split; [reflexivity|].
  split; [|split].
  - intro Hne. destruct (run_call_plugin_list_grows c st) as (added & ->).
    intro Happ. apply app_eq_nil in Happ. tauto.
  - intro Hne. destruct (run_call_plugin_types_grow c st) as (added & ->).
    intro Happ. apply app_eq_nil in Happ. tauto.
  - intro Hne. now apply scan_plugins_nonempty.
Qed.

Lemma plugins_cleanup_keeps_heads_witness :
  plugin_list (exec plugins_cleanup st_foo) = plugin_list st_foo
  /\ plugin_list st_foo <> []
  /\ exec (scan_plugins env_foo_twice REPORT_LOAD_FAILURE) (exec plugins_cleanup st_foo)
     = exec plugins_cleanup st_foo.
Proof.
  pose proof (plugins_cleanup_keeps_heads st_foo call_plugins_cleanup env_foo_twice
                REPORT_LOAD_FAILURE) as (Hpl & _ & _ & _ & _ & Hscan).
  assert (Hne : plugin_list st_foo <> []) by discriminate.
  split; [exact Hpl|]. split; [exact Hne|]. exact (Hscan Hne).
Defined.

(** * Further properties *)

(** ** The type registry *)

(** X1: in every state a process can reach there are at most 32 registered
    types, the static counter equals their number, and the record at
    position [i] of the registry carries bit index [i]. *)
Theorem bit_indices_follow_registration_order (st : state) :
  reachable st ->
  (List.length (plugin_types st) <= 32)%nat
  /\ static_type_val st = Z.of_nat (List.length (plugin_types st))
  /\ forall i ty, nth_error (plugin_types st) i = Some ty -> type_val ty = Z.of_nat i.
Proof.
  intro Hreach. destruct (reachable_types_wf st Hreach) as (Hvals & Hctr & Hlen).
  repeat split; try assumption.
  intros i ty Hnth.
  apply (map_nth_error type_val) in Hnth. rewrite Hvals in Hnth.
  assert (Hi : (i < List.length (plugin_types st))%nat).
  { rewrite <- (List.length_map type_val). rewrite Hvals.
    apply nth_error_Some. congruence. }
  rewrite (nth_error_nth' _ 0) in Hnth by (rewrite List.length_map, length_seq; exact Hi).
  injection Hnth as <-.
  change 0 with (Z.of_nat 0). rewrite map_nth, seq_nth by exact Hi. reflexivity.
Qed.

Lemma bit_indices_follow_registration_order_witness :
  static_type_val st_two_types = 2
  /\ type_val {| type := "wiretap"; callback := accept_all; type_val := 1 |} = 1.
Proof.
  destruct (bit_indices_follow_registration_order st_two_types
              (reachable_register_all _ initial_state reach_init))
    as (_ & Hctr & Hidx).
  split; [exact Hctr|].
  exact (Hidx 1%nat {| type := "wiretap"; callback := accept_all; type_val := 1 |}
           eq_refl).
Defined.

(** X2: while fewer than 32 types are registered, [add_plugin_type] appends
    the new record at the end of the registry with the number of earlier
    records as its bit index, advances the counter by one, reports nothing
    and leaves the plugin chain alone. *)
Theorem add_plugin_type_accepts_below_32 (st : state) (ty : string)
    (cb : plugin_check_type_callback) :
  reachable st ->
  (List.length (plugin_types st) < 32)%nat ->
  exec (add_plugin_type ty cb) st
  = {| plugin_list := plugin_list st;
       plugin_types :=
         plugin_types st
           ++ [{| type := ty; callback := cb;
                  type_val := Z.of_nat (List.length (plugin_types st)) |}];
       static_type_val := Z.of_nat (List.length (plugin_types st)) + 1;
       trace := trace st |}.
Proof.
  intros Hreach Hlt. destruct (reachable_types_wf st Hreach) as (_ & Hctr & _).
  rewrite add_plugin_type_accept by lia.
  rewrite Hctr. unfold guint_wrap. rewrite Z.mod_small by lia. reflexivity.
Qed.

Lemma add_plugin_type_accepts_below_32_witness :
  map type (plugin_types (exec (add_plugin_type "codec" accept_all) st_two_types))
  = ["dissector"; "wiretap"; "codec"]%string
  /\ map type_val (plugin_types (exec (add_plugin_type "codec" accept_all) st_two_types))
     = [0; 1; 2].
Proof.
  rewrite (add_plugin_type_accepts_below_32 st_two_types "codec" accept_all
             (reachable_register_all _ initial_state reach_init)
             ltac:(simpl; lia)).
  split; reflexivity.
Defined.

(** ** The plugin chain *)

Lemma check_if_plugin_exists_from_snoc (pl : list plugin) (p : plugin) (nm : string) :
  check_if_plugin_exists_from (pl ++ [p]) nm
  = check_if_plugin_exists_from pl nm || String.eqb (name p) nm.
Proof.
  induction pl as [|q pl IH]; simpl.
  - destruct (String.eqb (name p) nm); reflexivity.
  - destruct (String.eqb (name q) nm); [reflexivity | exact IH].
Qed.

(** X3: [check_if_plugin_exists] answers [TRUE] exactly when some cell of
    the chain carries that very name, and changes nothing. *)
Theorem check_if_plugin_exists_spec (nm : string) (st : state) :
  snd (check_if_plugin_exists nm st) = st
  /\ (fst (check_if_plugin_exists nm st) = true
      <-> exists p, In p (plugin_list st) /\ name p = nm).
Proof.
  rewrite run_check_if_plugin_exists. simpl. split; [reflexivity|].
  rewrite check_if_plugin_exists_from_In, in_map_iff.
  split; intros (p & H1 & H2); exists p; auto.
Qed.

(** X4: [add_plugin] puts the new cell behind all earlier ones; afterwards
    a lookup of a name succeeds exactly when it succeeded before or the
    name is the new cell's. *)
Theorem add_plugin_then_lookup (p : plugin) (nm : string) (st : state) :
  let st' := exec (add_plugin p) st in
  plugin_list st' = plugin_list st ++ [p]
  /\ plugin_types st' = plugin_types st
  /\ trace st' = trace st
  /\ fst (check_if_plugin_exists nm st')
     = fst (check_if_plugin_exists nm st) || String.eqb (name p) nm.
Proof.
  intro st'. subst st'. rewrite exec_add_plugin, !run_check_if_plugin_exists.
  simpl. repeat split. apply check_if_plugin_exists_from_snoc.
Qed.

(** ** File names *)

Lemma strrchr_None_iff (s : string) (c : ascii) :
  strrchr s c = None <-> contains_char c s = false.
Proof.
  induction s as [|a rest IH]; simpl.
  - tauto.
  - destruct (strrchr rest c) as [r|].
    + split; [discriminate|]. intro H. apply orb_false_elim in H.
      destruct H as [_ H]. apply IH in H. discriminate.
    + destruct (Ascii.eqb a c); simpl.
      * split; discriminate.
      * split; [intros _; now apply IH | reflexivity].
Qed.

Lemma strrchr_last (base ext : string) (c : ascii) :
  contains_char c ext = false ->
  strrchr (base ++ String c ext) c = Some (String c ext).
Proof.
  intro Hext. induction base as [|a base IH]; simpl.
  - apply strrchr_None_iff in Hext. rewrite Hext, Ascii.eqb_refl. reflexivity.
  - simpl in IH. now rewrite IH.
Qed.

Lemma strrchr_decompose (s d : string) (c : ascii) :
  strrchr s c = Some d ->
  exists base rest,
    s = (base ++ String c rest)%string /\ d = String c rest
    /\ contains_char c rest = false.
Proof.
  revert d. induction s as [|a s IH]; simpl; intros d H; [discriminate|].
  destruct (strrchr s c) as [r|] eqn:Hr.
  - injection H as <-. destruct (IH r eq_refl) as (base & rest & -> & -> & Hrest).
    exists (String a base), rest. auto.
  - destruct (Ascii.eqb_spec a c) as [-> | _]; [|discriminate].
    injection H as <-. exists EmptyString, s. repeat split.
    now apply strrchr_None_iff.
Qed.

(** X5: an entry passes the suffix test exactly when its name is some
    text, a dot and the platform's module suffix, the suffix holding no dot
    itself: only what follows the last dot counts, so [foo.so.bak] is not a
    module and a name without a dot never is. *)
Theorem module_suffix_test (E : env) (fname : string) :
  not_module_suffix E fname = false
  <-> contains_char "." (G_MODULE_SUFFIX E) = false
      /\ exists base, fname = (base ++ "." ++ G_MODULE_SUFFIX E)%string.
Proof.
  unfold not_module_suffix. split.
  - destruct (strrchr fname ".") as [dot|] eqn:Hdot; [|discriminate].
    intro Heq. apply negb_false_iff, String.eqb_eq in Heq.
    destruct (strrchr_decompose _ _ _ Hdot) as (base & rest & -> & -> & Hrest).
    simpl in Heq. subst rest. split; [exact Hrest|]. exists base. reflexivity.
  - intros (Hsuffix & base & ->).
    change (base ++ "." ++ G_MODULE_SUFFIX E)%string
      with (base ++ String "." (G_MODULE_SUFFIX E))%string.
    rewrite (strrchr_last base _ _ Hsuffix). simpl.
    now rewrite String.eqb_refl.
Qed.

Lemma length_substring_0 (n : nat) (s : string) :
  String.length (substring 0 n s) = Nat.min n (String.length s).
Proof.
  revert s. induction n as [|n IH]; intros [|a s]; simpl; try reflexivity.
  now rewrite IH.
Qed.

Lemma substring_0_whole (n : nat) (s : string) :
  (String.length s <= n)%nat -> substring 0 n s = s.
Proof.
  revert s. induction n as [|n IH]; intros [|a s]; simpl; intro H;
    try reflexivity; try lia.
  rewrite IH by lia. reflexivity.
Qed.

Lemma prefix_substring_0 (n : nat) (s : string) :
  prefix (substring 0 n s) s = true.
Proof.
  revert s. induction n as [|n IH]; intros [|a s]; simpl; try reflexivity.
  destruct (ascii_dec a a) as [_ | Hne]; [apply IH | contradiction].
Qed.

(** X6: the path handed to the loader is the directory, the separator and
    the entry name cut to the 1023 characters that fit [filename]: it is
    never longer, it is always the beginning of the full path, and it is the
    full path whenever that has at most 1023 characters. *)
Theorem entry_filename_truncated (E : env) (dirname fname : string) :
  let full := (dirname ++ G_DIR_SEPARATOR_S E ++ fname)%string in
  (String.length (entry_filename E dirname fname) <= 1023)%nat
  /\ prefix (entry_filename E dirname fname) full = true
  /\ ((String.length full <= 1023)%nat -> entry_filename E dirname fname = full)
  /\ ((1023 <= String.length full)%nat ->
      String.length (entry_filename E dirname fname) = 1023%nat).
Proof.
  intro full. unfold entry_filename, g_snprintf. fold full.
  change (FILENAME_LEN - 1)%nat with 1023%nat.
  repeat split.
  - rewrite length_substring_0. lia.
  - apply prefix_substring_0.
  - apply substring_0_whole.
  - intro H. rewrite length_substring_0. lia.
Qed.

Lemma entry_filename_truncated_witness :
  entry_filename env_foo_twice "/usr/lib/wireshark/plugins/2.4" "foo.so"
  = "/usr/lib/wireshark/plugins/2.4/foo.so"%string
  /\ String.length (long_dirname ++ "/" ++ "foo.so") = 1027%nat
  /\ String.length (entry_filename env_foo_twice long_dirname "foo.so") = 1023%nat.
Proof.
  pose proof (entry_filename_truncated env_foo_twice
                "/usr/lib/wireshark/plugins/2.4" "foo.so") as (_ & _ & Hshort & _).
  pose proof (entry_filename_truncated env_foo_twice long_dirname "foo.so")
    as (_ & _ & _ & Hlong).
  split; [apply Hshort; vm_compute; lia|].
  split; [vm_compute; reflexivity|].
  apply Hlong; vm_compute; lia.
Defined.

(** ** Outcomes of one loop iteration *)

Lemma scan_entry_load_failed (E : env) (dirname : string)
    (mode : plugin_load_failure_mode) (fname : string) (st : state) :
  is_candidate E fname = true ->
  check_if_plugin_exists_from (plugin_list st) fname = false ->
  g_module_open E (entry_filename E dirname fname) = None ->
  exec (scan_entry E dirname mode fname) st
  = with_trace st
      (ev_g_module_open (entry_filename E dirname fname)
       :: match mode with
          | REPORT_LOAD_FAILURE =>
              [ev_report_failure
                 ("Couldn't load module " ++ entry_filename E dirname fname ++ ": "
                    ++ g_module_error E (entry_filename E dirname fname))]
          | DONT_REPORT_LOAD_FAILURE => []
          end).
Proof.
  intros Hcand Hdup Hopen.
  pose proof (scan_entry_outcome E dirname mode fname st) as Hoc.
  remember (exec (scan_entry E dirname mode fname) st) as st' eqn:Hst'.
  outcome_cases Hoc.
Qed.

(** X7: a module file that is not registered yet and that the loader
    cannot open is skipped: both registries stay as they were and nothing
    is closed or freed; the loader's error is reported, with the path, in
    [REPORT_LOAD_FAILURE] mode, and nothing is reported in
    [DONT_REPORT_LOAD_FAILURE] mode. *)
Theorem unloadable_module_skipped (E : env) (dirname : string)
    (mode : plugin_load_failure_mode) (fname : string) (st : state) :
  is_candidate E fname = true ->
  check_if_plugin_exists_from (plugin_list st) fname = false ->
  g_module_open E (entry_filename E dirname fname) = None ->
  let st' := exec (scan_entry E dirname mode fname) st in
  plugin_list st' = plugin_list st
  /\ plugin_types st' = plugin_types st
  /\ closed_handles (trace st') = closed_handles (trace st)
  /\ reports (trace st')
     = reports (trace st)
       ++ match mode with
          | REPORT_LOAD_FAILURE =>
              [ev_report_failure
                 ("Couldn't load module " ++ entry_filename E dirname fname ++ ": "
                    ++ g_module_error E (entry_filename E dirname fname))]
          | DONT_REPORT_LOAD_FAILURE => []
          end.
Proof.
  intros Hcand Hdup Hopen st'. subst st'.
  rewrite (scan_entry_load_failed E dirname mode fname st Hcand Hdup Hopen).
  repeat split; simpl.
  - rewrite closed_handles_app. simpl. destruct mode; simpl; now rewrite app_nil_r.
  - unfold reports. rewrite filter_app. simpl. destruct mode; reflexivity.
Qed.

Lemma unloadable_module_skipped_witness :
  reports
    (trace (exec (scan_entry env_unloadable "/usr/lib/wireshark/plugins/2.4"
                    REPORT_LOAD_FAILURE "broken.so") initial_state))
  = [ev_report_failure
       "Couldn't load module /usr/lib/wireshark/plugins/2.4/broken.so: cannot open shared object file"].
Proof.
  exact (proj2 (proj2 (proj2
           (unloadable_module_skipped env_unloadable "/usr/lib/wireshark/plugins/2.4"
              REPORT_LOAD_FAILURE "broken.so" initial_state eq_refl eq_refl eq_refl)))).
Defined.

(** X8: a module file that is not registered yet, opens, has a [version]
    symbol and is accepted by at least one type is appended behind all
    earlier cells with the loader's handle, the entry name, the symbol's
    value and the mask of the classification pass; nothing is reported,
    closed or freed, and a later lookup of the name succeeds. *)
Theorem accepted_module_registered (E : env) (dirname : string)
    (mode : plugin_load_failure_mode) (fname : string) (st : state)
    (h : GModule) (gp : string) :
  is_candidate E fname = true ->
  check_if_plugin_exists_from (plugin_list st) fname = false ->
  g_module_open E (entry_filename E dirname fname) = Some h ->
  g_module_symbol E h "version" = Some gp ->
  types (classified st h fname gp) <> 0 ->
  let st' := exec (scan_entry E dirname mode fname) st in
  plugin_list st'
  = plugin_list st
    ++ [{| handle := h; name := fname; version := gp;
           types := types (classified st h fname gp) |}]
  /\ plugin_types st' = plugin_types st
  /\ trace st' = trace st ++ [ev_g_module_open (entry_filename E dirname fname)]
  /\ fst (check_if_plugin_exists fname st') = true.
Proof.
  intros Hcand Hdup Hopen Hsym Hnz st'. subst st'.
  rewrite (scan_entry_registered E dirname mode fname st h gp Hcand Hdup Hopen Hsym Hnz).
  assert (Hcell : classified st h fname gp
                  = {| handle := h; name := fname; version := gp;
                       types := types (classified st h fname gp) |}).
  { pose proof (classify_handle (plugin_types st) (new_candidate h fname gp)) as Hh.
    pose proof (classify_name (plugin_types st) (new_candidate h fname gp)) as Hn.
    pose proof (classify_version (plugin_types st) (new_candidate h fname gp)) as Hv.
    unfold classified. destruct (classify _ _) as [h' n' v' t']. simpl in *.
    now subst. }
  rewrite run_check_if_plugin_exists. simpl.
  repeat split.
  - now rewrite <- Hcell.
  - rewrite check_if_plugin_exists_from_snoc.
    unfold classified. rewrite classify_name. simpl.
    rewrite String.eqb_refl. apply orb_true_r.
Qed.

Lemma accepted_module_registered_witness :
  plugin_list
    (exec (scan_entry env_foo_twice "/usr/lib/wireshark/plugins/2.4"
             DONT_REPORT_LOAD_FAILURE "foo.so") st_two_types)
  = [{| handle := 7%N; name := "foo.so"; version := "1.0"; types := 2 |}].
Proof.
  exact (proj1
           (accepted_module_registered env_foo_twice "/usr/lib/wireshark/plugins/2.4"
              DONT_REPORT_LOAD_FAILURE "foo.so" st_two_types 7%N "1.0"
              eq_refl eq_refl eq_refl eq_refl ltac:(discriminate))).
Defined.

(** X9: an entry that fails the suffix test or is excluded on WIN32 leaves
    no mark: the state, trace included, is what it was, so the loader is
    not called and nothing is reported in either mode. *)
Theorem non_module_entry_ignored (E : env) (dirname : string)
    (mode : plugin_load_failure_mode) (fname : string) (st : state) :
  not_module_suffix E fname = true
  \/ (WIN32 E = true /\ prefix "nordic_ble.dll" fname = true) ->
  exec (scan_entry E dirname mode fname) st = st.
Proof.
  intro H. apply scan_entry_filtered. unfold is_candidate, win32_excluded, strncmp_eq.
  destruct H as [-> | [-> ->]]; [reflexivity|].
  now rewrite andb_false_r.
Qed.

Lemma non_module_entry_ignored_witness :
  exec (scan_entry env_unloadable "/usr/lib/wireshark/plugins/2.4"
          REPORT_LOAD_FAILURE "notes.txt") initial_state
  = initial_state.
Proof.
  exact (non_module_entry_ignored env_unloadable "/usr/lib/wireshark/plugins/2.4"
           REPORT_LOAD_FAILURE "notes.txt" initial_state (or_introl eq_refl)).
Defined.

(** ** Directories *)

(** X10: scanning a directory that does not exist, is not a directory,
    cannot be opened or is empty does nothing but the call: both registries
    stay as they were, the loader is not called and nothing is reported, in
    either mode. *)
Theorem absent_directory_scan_is_silent (E : env) (dirname : string)
    (mode : plugin_load_failure_mode) (st : state) :
  g_file_test_EXISTS E dirname = false
  \/ g_file_test_IS_DIR E dirname = false
  \/ ws_dir_open E dirname = None
  \/ ws_dir_open E dirname = Some [] ->
  exec (plugins_scan_dir E dirname mode) st = with_trace st [ev_plugins_scan_dir dirname]
  /\ reports (trace (exec (plugins_scan_dir E dirname mode) st)) = reports (trace st)
  /\ opened_files (trace (exec (plugins_scan_dir E dirname mode) st))
     = opened_files (trace st).
Proof.
  intro H.
  assert (Hrun : exec (plugins_scan_dir E dirname mode) st
                 = with_trace st [ev_plugins_scan_dir dirname]).
  { unfold plugins_scan_dir. rewrite exec_seq, exec_emit.
    destruct (g_file_test_EXISTS E dirname); [|reflexivity].
    destruct (g_file_test_IS_DIR E dirname); [|reflexivity].
    simpl.
    destruct H as [H | [H | [H | H]]]; try discriminate; rewrite H; reflexivity. }
  rewrite Hrun. repeat split; simpl.
  - unfold reports. rewrite filter_app. simpl. apply app_nil_r.
  - rewrite opened_files_app. simpl. apply app_nil_r.
Qed.

Lemma absent_directory_scan_is_silent_witness :
  exec (plugins_scan_dir env_foo_twice "/opt/plugins" REPORT_LOAD_FAILURE) st_one_type
  = with_trace st_one_type [ev_plugins_scan_dir "/opt/plugins"].
Proof.
  pose proof (proj1 (absent_directory_scan_is_silent env_foo_twice "/opt/plugins"
                       REPORT_LOAD_FAILURE st_one_type (or_introl eq_refl))) as H.
  exact H.
Defined.

(** X11: in an installed layout, a discovery pass that runs (empty
    registry, plugin directory found) hands the scanner the versioned
    system directory first and then, only if the process was not started
    with special privileges, the personal directory; no other directory. *)
Theorem installed_layout_scan_order (E : env) (mode : plugin_load_failure_mode)
    (st : state) (plugin_dir : string) :
  running_in_build_directory E = false ->
  plugin_list st = [] ->
  get_plugins_dir E = Some plugin_dir ->
  scanned_dirs (trace (exec (scan_plugins E mode) st))
  = scanned_dirs (trace st)
    ++ get_plugins_dir_with_version E
       :: (if started_with_special_privs E then []
           else [get_plugins_pers_dir_with_version E]).
Proof.
  intros Hbuild Hempty Hdir.
  rewrite scan_plugins_scanned_dirs, Hempty, Hdir.
  unfold global_scan_list. rewrite Hbuild. reflexivity.
Qed.

Lemma installed_layout_scan_order_witness :
  scanned_dirs (trace st_foo)
  = ["/usr/lib/wireshark/plugins/2.4"; "/home/user/.wireshark/plugins/2.4"]%string.
Proof.
  pose proof (installed_layout_scan_order env_foo_twice REPORT_LOAD_FAILURE st_one_type
                "/usr/lib/wireshark/plugins" eq_refl eq_refl eq_refl) as H.
  vm_compute in H. vm_compute. exact H.
Defined.

(** X12: in a build tree, a discovery pass that runs scans the plugin
    directory itself, then, for each of its entries other than [.] and
    [..], in order, the entry's [.libs] subdirectory when that is a
    directory and the entry itself otherwise, and last the personal
    directory unless the process is privileged; when the plugin directory
    cannot be opened, only the personal directory is left. *)
Theorem build_tree_scan_order (E : env) (mode : plugin_load_failure_mode)
    (st : state) (plugin_dir : string) :
  running_in_build_directory E = true ->
  plugin_list st = [] ->
  get_plugins_dir E = Some plugin_dir ->
  scanned_dirs (trace (exec (scan_plugins E mode) st))
  = scanned_dirs (trace st)
    ++ match ws_dir_open E plugin_dir with
       | Some entries =>
           plugin_dir
           :: flat_map
                (fun fname =>
                   if String.eqb fname "." || String.eqb fname ".." then []
                   else
                     let libs := (plugin_dir ++ G_DIR_SEPARATOR_S E ++ fname
                                    ++ G_DIR_SEPARATOR_S E ++ ".libs")%string in
                     [if test_for_directory E libs =? EISDIR then libs
                      else (plugin_dir ++ G_DIR_SEPARATOR_S E ++ fname)%string])
                entries
       | None => []
       end
    ++ (if started_with_special_privs E then []
        else [get_plugins_pers_dir_with_version E]).
Proof.
  intros Hbuild Hempty Hdir.
  rewrite scan_plugins_scanned_dirs, Hempty, Hdir.
  unfold global_scan_list. rewrite Hbuild.
  destruct (ws_dir_open E plugin_dir) as [entries|]; [|reflexivity].
  unfold build_subdir_targets. f_equal. simpl. f_equal. f_equal.
  apply flat_map_ext. intro fname.
  destruct (String.eqb fname "." || String.eqb fname ".."); [reflexivity|].
  unfold build_subdir_path.
  destruct (test_for_directory E _ =? EISDIR); reflexivity.
Qed.

Lemma build_tree_scan_order_witness :
  scanned_dirs (trace (exec (scan_plugins env_build_tree REPORT_LOAD_FAILURE) st_one_type))
  = ["/build/plugins"; "/build/plugins/docsis/.libs"; "/build/plugins/mate";
     "/home/user/.wireshark/plugins/2.4"]%string.
Proof.
  pose proof (build_tree_scan_order env_build_tree REPORT_LOAD_FAILURE st_one_type
                "/build/plugins" eq_refl eq_refl eq_refl) as H.
  vm_compute in H. vm_compute. exact H.
Defined.

(** X13: [scan_plugins] does nothing at all, not even a scan of the
    personal directory, when the registry already holds a plugin or when
    the plugin directory cannot be found. *)
Theorem scan_plugins_does_nothing (E : env) (mode : plugin_load_failure_mode)
    (st : state) :
  plugin_list st <> [] \/ get_plugins_dir E = None ->
  exec (scan_plugins E mode) st = st.
Proof.
  intros [Hne | Hnone]; [now apply scan_plugins_nonempty|].
  unfold scan_plugins. rewrite exec_gets_bind.
  destruct (plugin_list st); [|reflexivity]. now rewrite Hnone.
Qed.

Lemma scan_plugins_does_nothing_witness :
  exec (scan_plugins env_no_plugin_dir REPORT_LOAD_FAILURE) st_one_type = st_one_type
  /\ exec (scan_plugins env_no_version REPORT_LOAD_FAILURE) st_foo = st_foo.
Proof.
  split.
  - exact (scan_plugins_does_nothing env_no_plugin_dir REPORT_LOAD_FAILURE st_one_type
             (or_intror eq_refl)).
  - assert (Hne : plugin_list st_foo <> []) by (vm_compute; discriminate).
    exact (scan_plugins_does_nothing env_no_version REPORT_LOAD_FAILURE st_foo
             (or_introl Hne)).
Defined.

(** X14: whatever it finds, a discovery pass only adds: the plugin chain
    after [scan_plugins] or [plugins_scan_dir] is the old chain with cells
    appended, the trace is the old trace with events appended, and the type
    registry and its counter are untouched. *)
Theorem discovery_only_appends (E : env) (dirname : string)
    (mode : plugin_load_failure_mode) (st : state) :
  (exists added evs,
      exec (scan_plugins E mode) st = grow st added (trace st ++ evs))
  /\ (exists added evs,
        exec (plugins_scan_dir E dirname mode) st = grow st added (trace st ++ evs)).
Proof.
  split.
  - destruct (appends_only_exec (scan_plugins E mode) st
                (appends_only_scan_plugins E mode)) as (added & evs & Hrun & _).
    eauto.
  - destruct (appends_only_exec (plugins_scan_dir E dirname mode) st
                (appends_only_plugins_scan_dir E dirname mode))
      as (added & evs & Hrun & _).
    eauto.
Qed.

(** ** Invariants of a pass over fixed collaborators *)

Section PassInvariant.

Variable E : env.
Variable mode : plugin_load_failure_mode.
Variable P : state -> Prop.
Hypothesis P_call : forall st d, P st -> P (exec (emit (ev_plugins_scan_dir d)) st).
Hypothesis P_entry :
  forall dirname fname st, P st -> P (exec (scan_entry E dirname mode fname) st).

Lemma plugins_scan_dir_pass (dirname : string) (st : state) :
  P st -> P (exec (plugins_scan_dir E dirname mode) st).
Proof.
  intro HP. unfold plugins_scan_dir. rewrite exec_seq.
  destruct (negb (g_file_test_EXISTS E dirname) || negb (g_file_test_IS_DIR E dirname)).
  - rewrite exec_ret. apply P_call, HP.
  - destruct (ws_dir_open E dirname) as [entries|].
    + apply foreach_invariant; [intros; now apply P_entry | apply P_call, HP].
    + rewrite exec_ret. apply P_call, HP.
Qed.

Lemma scan_global_dirs_pass (plugin_dir : string) (st : state) :
  P st -> P (exec (scan_global_dirs E plugin_dir mode) st).
Proof.
  intro HP. unfold scan_global_dirs.
  destruct (running_in_build_directory E); [|apply plugins_scan_dir_pass, HP].
  destruct (ws_dir_open E plugin_dir) as [entries|]; [|exact HP].
  rewrite exec_seq. apply foreach_invariant; [|apply plugins_scan_dir_pass, HP].
  intros fname s Hs. unfold scan_build_subdir.
  destruct (String.eqb fname "." || String.eqb fname ".."); [exact Hs|].
  apply plugins_scan_dir_pass, Hs.
Qed.

Lemma scan_plugins_pass (st : state) :
  P st -> P (exec (scan_plugins E mode) st).
Proof.
  intro HP. unfold scan_plugins. rewrite exec_gets_bind.
  destruct (plugin_list st); [|exact HP].
  destruct (get_plugins_dir E) as [plugin_dir|]; [|exact HP].
  rewrite exec_seq.
  destruct (negb (started_with_special_privs E)).
  - apply plugins_scan_dir_pass, scan_global_dirs_pass, HP.
  - rewrite exec_ret. apply scan_global_dirs_pass, HP.
Qed.

End PassInvariant.


(** ** What a silent pass reports *)




(** ** Module handles *)




(** ** What the registry holds after discovery *)

Lemma is_candidate_suffix (E : env) (fname : string) :
  is_candidate E fname = true ->
  exists base, fname = (base ++ "." ++ G_MODULE_SUFFIX E)%string.
Proof.
  unfold is_candidate. intro H. apply andb_prop in H. destruct H as [H _].
  apply negb_true_iff in H.
  destruct (strrchr fname ".") as [dot|] eqn:Hdot;
    unfold not_module_suffix in H; rewrite Hdot in H; [|discriminate].
  apply negb_false_iff, String.eqb_eq in H.
  destruct (strrchr_decompose _ _ _ Hdot) as (base & rest & -> & -> & _).
  simpl in H. subst rest. exists base. reflexivity.
Qed.

Lemma scan_entry_from_module_file (E : env) (dirname : string)
    (mode : plugin_load_failure_mode) (fname : string) (st0 st : state) :
  (forall p, In p (plugin_list st) -> In p (plugin_list st0) \/ from_module_file E p) ->
  forall p, In p (plugin_list (exec (scan_entry E dirname mode fname) st)) ->
            In p (plugin_list st0) \/ from_module_file E p.
Proof.
  intros Hold p.
  destruct (scan_entry_outcome E dirname mode fname st) as
    [ | | | | | h gp Hcand Hdup Hopen Hsym Hnz ]; try apply Hold.
  simpl. rewrite in_app_iff. intros [Hin | [<- | []]]; [now apply Hold|].
  right. unfold from_module_file, classified.
  rewrite classify_name, classify_handle, classify_version. simpl.
  repeat split; try assumption.
  - now apply is_candidate_suffix.
  - exists dirname. exact Hopen.
Qed.

(** X17: every cell a discovery pass over [E] appends comes from a module
    file: its name passed the filters and ends in a dot and the module
    suffix, its handle is what the loader returned for that name in one of
    the directories, its version is the module's [version] symbol, and its
    mask is not zero. *)
Theorem discovered_plugins_come_from_module_files (E : env)
    (mode : plugin_load_failure_mode) (st : state) (p : plugin) :
  In p (plugin_list (exec (scan_plugins E mode) st)) ->
  In p (plugin_list st) \/ from_module_file E p.
Proof.
  revert p.
  apply (scan_plugins_pass E mode
           (fun s => forall p, In p (plugin_list s) ->
                               In p (plugin_list st) \/ from_module_file E p)).
  - intros s d Hs. exact Hs.
  - intros dirname fname s Hs. now apply scan_entry_from_module_file.
  - auto.
Qed.

Lemma discovered_plugins_come_from_module_files_witness :
  from_module_file env_foo_twice
    {| handle := 7%N; name := "foo.so"; version := "1.0"; types := 1 |}.
Proof.
  destruct (discovered_plugins_come_from_module_files env_foo_twice REPORT_LOAD_FAILURE
              st_one_type
              {| handle := 7%N; name := "foo.so"; version := "1.0"; types := 1 |}
              (or_introl eq_refl)) as [[] | H].
  exact H.
Defined.

Lemma classify_range (tys : list plugin_type) (p : plugin) :
  0 <= types p < 2 ^ 32 -> 0 <= types (classify tys p) < 2 ^ 32.
Proof.
  revert p. induction tys as [|ty tys IH]; intros p Hp; [exact Hp|].
  rewrite classify_cons. apply IH, call_plugin_callback_range, Hp.
Qed.

(** The mask of a candidate uses the bits of the registered types only. *)
Lemma classified_range (st : state) (h : GModule) (fname gp : string) :
  types_wf st ->
  0 <= types (classified st h fname gp)
       < 2 ^ Z.of_nat (List.length (plugin_types st)).
Proof.
  intro Hwf.
  assert (H0 : 0 <= types (classified st h fname gp)).
  { apply classify_range. simpl. lia. }
  split; [exact H0|].
  destruct (Z.eq_dec (types (classified st h fname gp)) 0) as [-> | Hnz].
  { apply Z.pow_pos_nonneg; lia. }
  apply Z.log2_lt_pow2; [lia|].
  destruct (Z_lt_le_dec (Z.log2 (types (classified st h fname gp)))
              (Z.of_nat (List.length (plugin_types st)))) as [Hlt | Hge];
    [exact Hlt | exfalso].
  assert (Hbit : Z.testbit (types (classified st h fname gp))
                   (Z.log2 (types (classified st h fname gp))) = true)
    by (apply Z.bit_log2; lia).
  rewrite (classified_testbit st h fname gp Hwf) in Hbit.
  apply existsb_exists in Hbit. destruct Hbit as (ty & Hin & Hty).
  apply andb_prop in Hty. destruct Hty as [_ Heq]. apply Z.eqb_eq in Heq.
  destruct Hwf as (Hvals & _ & _).
  apply (in_map type_val) in Hin. rewrite Hvals in Hin.
  apply in_map_iff in Hin. destruct Hin as (k & Hk & Hin).
  apply in_seq in Hin. lia.
Qed.

Lemma run_call_masks_in_range (c : api_call) (st : state) :
  types_wf st ->
  (forall p, In p (plugin_list st) ->
             0 < types p < 2 ^ Z.of_nat (List.length (plugin_types st))) ->
  forall p, In p (plugin_list (exec (run_call c) st)) ->
            0 < types p < 2 ^ Z.of_nat (List.length (plugin_types (exec (run_call c) st))).
Proof.
  intros Hwf Hold. destruct c as [ty cb | E mode | E cb | E |]; simpl.
  - destruct (Z_lt_le_dec (static_type_val st) 32) as [Hlt | Hge].
    + rewrite add_plugin_type_accept by exact Hlt. simpl.
      intros p Hin. specialize (Hold p Hin).
      rewrite List.length_app. simpl.
      assert (2 ^ Z.of_nat (List.length (plugin_types st))
              <= 2 ^ Z.of_nat (List.length (plugin_types st) + 1))
        by (apply Z.pow_le_mono_r; lia).
      lia.
    + rewrite add_plugin_type_reject by exact Hge. exact Hold.
  - apply (scan_plugins_invariant
             (fun s => types_wf s
                       /\ forall p, In p (plugin_list s) ->
                            0 < types p < 2 ^ Z.of_nat (List.length (plugin_types s))));
      [ | | now split ].
    + intros s e Hs. exact Hs.
    + intros E' dirname mode' fname s [Hs Hbound].
      destruct (scan_entry_outcome E' dirname mode' fname s)
        as [ | | | | | h gp Hcand Hdup Hopen Hsym Hnz ]; try (split; assumption).
      split; [exact Hs|]. simpl. intros p Hin.
      apply in_app_iff in Hin. destruct Hin as [Hin | [<- | []]]; [now apply Hbound|].
      pose proof (classified_range s h fname gp Hs). lia.
  - rewrite exec_plugins_get_descriptions. exact Hold.
  - unfold plugins_dump_all. rewrite exec_plugins_get_descriptions. exact Hold.
  - rewrite exec_plugins_cleanup. exact Hold.
Qed.

(** X18: in every state a process can reach, the mask of every registered
    plugin is not zero and has no bit at or above the number of registered
    types: each plugin belongs to at least one type, and only to registered
    ones. *)
Theorem registered_masks_use_registered_bits (st : state) (p : plugin) :
  reachable st ->
  In p (plugin_list st) ->
  0 < types p < 2 ^ Z.of_nat (List.length (plugin_types st)).
Proof.
  intro Hreach. revert p.
  induction Hreach as [|st c Hreach IH].
  - intros p [].
  - apply run_call_masks_in_range; [apply reachable_types_wf, Hreach | exact IH].
Qed.

Lemma registered_masks_use_registered_bits_witness :
  0 < 1 < 2 ^ Z.of_nat 1.
Proof.
  exact (registered_masks_use_registered_bits st_foo
           {| handle := 7%N; name := "foo.so"; version := "1.0"; types := 1 |}
           (reach_call _ (call_scan_plugins env_foo_twice REPORT_LOAD_FAILURE)
              (reach_call _ (call_add_plugin_type "dissector" accept_all) reach_init))
           (or_introl eq_refl)).
Defined.

Lemma classify_none_accepts (tys : list plugin_type) (p : plugin) :
  (forall ty, In ty tys -> callback ty (handle p) = false) ->
  classify tys p = p.
Proof.
  revert p. induction tys as [|ty tys IH]; intros p Hnone; [reflexivity|].
  rewrite classify_cons. unfold call_plugin_callback.
  rewrite (Hnone ty (or_introl eq_refl)).
  apply IH. intros ty' Hin. apply Hnone. now right.
Qed.

(** X19: when no registered type accepts any module, in particular when no
    type is registered at all, a discovery pass registers nothing: the
    plugin chain after [scan_plugins] is the chain before. *)
Theorem nothing_registered_without_accepting_type (E : env)
    (mode : plugin_load_failure_mode) (st : state) :
  (forall ty h, In ty (plugin_types st) -> callback ty h = false) ->
  plugin_list (exec (scan_plugins E mode) st) = plugin_list st.
Proof.
  intro Hnone.
  apply (scan_plugins_pass E mode
           (fun s => plugin_types s = plugin_types st
                     /\ plugin_list s = plugin_list st)); [ | | now split ].
  - intros s d Hs. exact Hs.
  - intros dirname fname s [Hty Hpl].
    destruct (scan_entry_outcome E dirname mode fname s)
      as [ | | | | | h gp Hcand Hdup Hopen Hsym Hnz ]; try (split; assumption).
    exfalso. apply Hnz. unfold classified.
    rewrite classify_none_accepts; [reflexivity|].
    intros ty Hin. apply Hnone. now rewrite <- Hty.
Qed.

Lemma nothing_registered_without_accepting_type_witness :
  plugin_list (exec (scan_plugins env_foo_twice REPORT_LOAD_FAILURE) initial_state) = []
  /\ plugin_list (exec (scan_plugins env_foo_twice REPORT_LOAD_FAILURE) st_reject_all) = [].
Proof.
  split.
  - apply (nothing_registered_without_accepting_type env_foo_twice REPORT_LOAD_FAILURE
             initial_state).
    intros ty h [].
  - apply (nothing_registered_without_accepting_type env_foo_twice REPORT_LOAD_FAILURE
             st_reject_all).
    intros ty h [<- | []]. reflexivity.
Defined.

(** ** Descriptions *)

Lemma append_nil_r (s : string) : (s ++ "")%string = s.
Proof. induction s as [|a s IH]; simpl; [reflexivity | now rewrite IH]. Qed.

Lemma append_assoc (a b c : string) : ((a ++ b) ++ c)%string = (a ++ b ++ c)%string.
Proof. induction a as [|x a IH]; simpl; [reflexivity | now rewrite IH]. Qed.

Lemma land_bit_test (x n : Z) :
  0 <= n -> negb (Z.land x (Z.shiftl 1 n) =? 0) = Z.testbit x n.
Proof.
  intro Hn. destruct (Z.testbit x n) eqn:Hbit.
  - apply negb_true_iff, Z.eqb_neq. intro Hzero.
    assert (Hb : Z.testbit (Z.land x (Z.shiftl 1 n)) n = true).
    { rewrite Z.land_spec, Hbit, testbit_one_shiftl by exact Hn.
      now rewrite Z.eqb_refl. }
    rewrite Hzero, Z.testbit_0_l in Hb. discriminate.
  - apply negb_false_iff, Z.eqb_eq, Z.bits_inj_0. intro m.
    rewrite Z.land_spec, testbit_one_shiftl by exact Hn.
    destruct (Z.eqb_spec n m) as [<- | _]; [now rewrite Hbit | apply andb_false_r].
Qed.

Lemma describe_fold (p : plugin) (tys : list plugin_type) (acc sep : string) :
  Forall (fun ty => 0 <= type_val ty) tys ->
  fst (g_slist_foreach tys (add_plugin_type_description p) (acc, sep))
  = (acc ++ match map type (filter (has_type p) tys) with
            | [] => ""
            | names => sep ++ String.concat ", " names
            end)%string.
Proof.
  intro Hall. revert acc sep.
  induction Hall as [|ty tys Hty Hall IH]; intros acc sep.
  - simpl. now rewrite append_nil_r.
  - change (g_slist_foreach (ty :: tys) (add_plugin_type_description p) (acc, sep))
      with (g_slist_foreach tys (add_plugin_type_description p)
              (add_plugin_type_description p ty (acc, sep))).
    assert (Hstep : add_plugin_type_description p ty (acc, sep)
                    = if has_type p ty
                      then ((acc ++ sep ++ type ty)%string, ", "%string)
                      else (acc, sep)).
    { unfold add_plugin_type_description.
      rewrite land_bit_test by exact Hty. reflexivity. }
    rewrite Hstep. simpl filter.
    destruct (has_type p ty); [|apply IH].
    rewrite IH. simpl map.
    destruct (map type (filter (has_type p) tys)) as [|n names].
    + simpl. now rewrite append_nil_r.
    + change (String.concat ", " (type ty :: n :: names))
        with (type ty ++ ", " ++ String.concat ", " (n :: names))%string.
      now rewrite !append_assoc.
Qed.

(** X20: in every state a process can reach, the description built for a
    plugin is the names of the registered types whose bit is set in its
    mask, in registration order, joined by a comma and a space; it is empty
    when no bit of a registered type is set. *)
Theorem describe_plugin_lists_types (st : state) (p : plugin) :
  reachable st ->
  describe_plugin (plugin_types st) p
  = String.concat ", " (map type (filter (has_type p) (plugin_types st))).
Proof.
  intro Hreach. unfold describe_plugin.
  rewrite describe_fold.
  - simpl. now destruct (map type (filter (has_type p) (plugin_types st))).
  - apply reachable_types_wf, types_wf_bounds in Hreach.
    apply Forall_forall. intros ty Hin.
    rewrite Forall_forall in Hreach. specialize (Hreach ty Hin). lia.
Qed.

Lemma describe_plugin_lists_types_witness :
  describe_plugin (plugin_types st_three_types)
    {| handle := 7%N; name := "foo.so"; version := "1.0"; types := 5 |}
  = "dissector, codec"%string.
Proof.
  exact (describe_plugin_lists_types st_three_types
           {| handle := 7%N; name := "foo.so"; version := "1.0"; types := 5 |}
           (reachable_register_all _ initial_state reach_init)).
Defined.

(** X21: classification and description agree: in every state a process
    can reach, the description of a freshly classified module names
    exactly the registered types whose callback accepted its handle, in
    registration order. *)
Theorem description_of_classified_module (st : state) (h : GModule) (fname gp : string) :
  reachable st ->
  describe_plugin (plugin_types st) (classified st h fname gp)
  = String.concat ", "
      (map type (filter (fun ty => callback ty h) (plugin_types st))).
Proof.
  intro Hreach. pose proof (reachable_types_wf st Hreach) as Hwf.
  unfold describe_plugin. rewrite describe_fold.
  2:{ pose proof (types_wf_bounds st Hwf) as Hb.
      apply Forall_forall. intros ty Hin.
      rewrite Forall_forall in Hb. specialize (Hb ty Hin). lia. }
  assert (Hsame : filter (has_type (classified st h fname gp)) (plugin_types st)
                  = filter (fun ty => callback ty h) (plugin_types st)).
  { apply filter_ext_in. intros ty Hin. unfold has_type.
    rewrite (classified_testbit st h fname gp Hwf).
    apply existsb_unique_bit; [apply types_wf_NoDup, Hwf | exact Hin]. }
  rewrite Hsame. simpl.
  now destruct (map type (filter (fun ty => callback ty h) (plugin_types st))).
Qed.

Lemma description_of_classified_module_witness :
  describe_plugin (plugin_types st_three_types)
    (classified st_three_types 7%N "foo.so" "1.0")
  = "dissector, codec"%string.
Proof.
  exact (description_of_classified_module st_three_types 7%N "foo.so" "1.0"
           (reachable_register_all _ initial_state reach_init)).
Defined.

Lemma flat_map_singleton {A B : Type} (f : A -> B) (l : list A) :
  flat_map (fun x => [f x]) l = map f l.
Proof. induction l as [|x l IH]; simpl; [reflexivity | now rewrite IH]. Qed.

(** X22: [plugins_get_descriptions] calls the callback once for every
    registered plugin, in chain order, with the plugin's name, version,
    type description and module file name, and changes neither registry;
    [plugins_dump_all] prints, for each, these four fields separated by
    tabs and ended by a newline. *)
Theorem descriptions_follow_the_chain (E : env) (cb : plugin_description_callback)
    (st : state) :
  exec (plugins_get_descriptions E cb) st
  = with_trace st
      (map (fun p => cb (name p) (version p)
                       (describe_plugin (plugin_types st) p)
                       (g_module_name E (handle p)))
         (plugin_list st))
  /\ exec (plugins_dump_all E) st
     = with_trace st
         (map (fun p =>
                 ev_ws_debug_printf
                   (name p ++ TAB ++ version p ++ TAB
                      ++ describe_plugin (plugin_types st) p ++ TAB
                      ++ g_module_name E (handle p) ++ NL))
            (plugin_list st)).
Proof.
  split.
  - rewrite exec_plugins_get_descriptions. now rewrite flat_map_singleton.
  - unfold plugins_dump_all. rewrite exec_plugins_get_descriptions.
    now rewrite flat_map_singleton.
Qed.

(** ** The reporting mode *)

Lemma foreach_related {A : Type} (R : state -> state -> Prop) (l : list A)
    (body1 body2 : A -> M unit) :
  (forall x s1 s2, R s1 s2 -> R (exec (body1 x) s1) (exec (body2 x) s2)) ->
  forall s1 s2, R s1 s2 -> R (exec (foreach l body1) s1) (exec (foreach l body2) s2).
Proof.
  intro Hbody. induction l as [|x l IH]; intros s1 s2 HR.
  - exact HR.
  - rewrite !exec_foreach_cons. apply IH, Hbody, HR.
Qed.

Section ModeIrrelevance.

Variable E : env.
Variables m1 m2 : plugin_load_failure_mode.

Lemma same_registries_scan_entry (dirname fname : string) (s1 s2 : state) :
  same_registries s1 s2 ->
  same_registries (exec (scan_entry E dirname m1 fname) s1)
    (exec (scan_entry E dirname m2 fname) s2).
Proof.
  intros (Hpl & Hty & Hop & Hcl).
  assert (Hcls : forall h gp, classified s1 h fname gp = classified s2 h fname gp)
    by (intros; unfold classified; now rewrite Hty).
  destruct (scan_entry_outcome E dirname m1 fname s1);
    destruct (scan_entry_outcome E dirname m2 fname s2);
    try congruence;
    same_module;
    try (rewrite Hcls in *; congruence);
    unfold same_registries; simpl;
    rewrite ?opened_files_app, ?closed_handles_app, ?Hcls;
    destruct m1, m2; simpl; rewrite ?app_nil_r;
    repeat split; congruence.
Qed.

Lemma same_registries_call (d : string) (s1 s2 : state) :
  same_registries s1 s2 ->
  same_registries (exec (emit (ev_plugins_scan_dir d)) s1)
    (exec (emit (ev_plugins_scan_dir d)) s2).
Proof.
  intros (Hpl & Hty & Hop & Hcl). rewrite !exec_emit.
  unfold same_registries. simpl.
  rewrite !opened_files_app, !closed_handles_app. simpl.
  rewrite !app_nil_r. auto.
Qed.

Lemma same_registries_plugins_scan_dir (dirname : string) (s1 s2 : state) :
  same_registries s1 s2 ->
  same_registries (exec (plugins_scan_dir E dirname m1) s1)
    (exec (plugins_scan_dir E dirname m2) s2).
Proof.
  intro HR. unfold plugins_scan_dir. rewrite !exec_seq.
  pose proof (same_registries_call dirname s1 s2 HR) as Hcall.
  destruct (negb (g_file_test_EXISTS E dirname) || negb (g_file_test_IS_DIR E dirname));
    [exact Hcall|].
  destruct (ws_dir_open E dirname) as [entries|]; [|exact Hcall].
  apply foreach_related; [|exact Hcall].
  intros. now apply same_registries_scan_entry.
Qed.

Lemma same_registries_scan_global_dirs (plugin_dir : string) (s1 s2 : state) :
  same_registries s1 s2 ->
  same_registries (exec (scan_global_dirs E plugin_dir m1) s1)
    (exec (scan_global_dirs E plugin_dir m2) s2).
Proof.
  intro HR. unfold scan_global_dirs.
  destruct (running_in_build_directory E);
    [|now apply same_registries_plugins_scan_dir].
  destruct (ws_dir_open E plugin_dir) as [entries|]; [|exact HR].
  rewrite !exec_seq. apply foreach_related.
  - intros fname t1 t2 Ht. unfold scan_build_subdir.
    destruct (String.eqb fname "." || String.eqb fname ".."); [exact Ht|].
    now apply same_registries_plugins_scan_dir.
  - now apply same_registries_plugins_scan_dir.
Qed.

Lemma same_registries_scan_plugins (s1 s2 : state) :
  same_registries s1 s2 ->
  same_registries (exec (scan_plugins E m1) s1) (exec (scan_plugins E m2) s2).
Proof.
  intro HR. unfold scan_plugins. rewrite !exec_gets_bind.
  destruct HR as (Hpl & Hrest). rewrite <- Hpl.
  pose proof (conj Hpl Hrest : same_registries s1 s2) as HR.
  destruct (plugin_list s1); [|exact HR].
  destruct (get_plugins_dir E) as [plugin_dir|]; [|exact HR].
  rewrite !exec_seq.
  destruct (negb (started_with_special_privs E)).
  - now apply same_registries_plugins_scan_dir, same_registries_scan_global_dirs.
  - rewrite !exec_ret. now apply same_registries_scan_global_dirs.
Qed.

End ModeIrrelevance.

(** X23: the reporting mode changes reports only: from the same state and
    over the same collaborators, discovery in [REPORT_LOAD_FAILURE] mode and
    in [DONT_REPORT_LOAD_FAILURE] mode registers the same plugins in the
    same order, hands the same files to the loader and closes the same
    handles. *)
Theorem mode_changes_reports_only (E : env) (st : state) :
  let loud := exec (scan_plugins E REPORT_LOAD_FAILURE) st in
  let silent := exec (scan_plugins E DONT_REPORT_LOAD_FAILURE) st in
  plugin_list loud = plugin_list silent
  /\ plugin_types loud = plugin_types silent
  /\ opened_files (trace loud) = opened_files (trace silent)
  /\ closed_handles (trace loud) = closed_handles (trace silent).
Proof.
  apply (same_registries_scan_plugins E REPORT_LOAD_FAILURE DONT_REPORT_LOAD_FAILURE).
  repeat split.
Qed.

(** ** Which entries of a directory become plugins *)

Lemma classified_nonzero_iff (st : state) (h : GModule) (fname gp : string) :
  types_wf st ->
  types (classified st h fname gp) <> 0
  <-> existsb (fun ty => callback ty h) (plugin_types st) = true.
Proof.
  intro Hwf. rewrite (classified_zero_iff st h fname gp Hwf). split.
  - intro Hsome. destruct (existsb _ _) eqn:Hex; [reflexivity | exfalso].
    apply Hsome. intros ty Hin.
    destruct (callback ty h) eqn:Hcb; [|reflexivity].
    assert (existsb (fun ty => callback ty h) (plugin_types st) = true)
      by (apply existsb_exists; eauto).
    congruence.
  - intros Hex Hnone. apply existsb_exists in Hex. destruct Hex as (ty & Hin & Hcb).
    rewrite (Hnone ty Hin) in Hcb. discriminate.
Qed.

Lemma scan_entry_names (E : env) (dirname : string) (mode : plugin_load_failure_mode)
    (fname : string) (st : state) (x : string) :
  types_wf st ->
  In x (map name (plugin_list (exec (scan_entry E dirname mode fname) st)))
  <-> In x (map name (plugin_list st))
      \/ (x = fname /\ module_accepted E (plugin_types st) dirname fname = true).
Proof.
  intro Hwf. unfold module_accepted.
  destruct (scan_entry_outcome E dirname mode fname st)
    as [ Hcand | Hcand Hdup | Hcand Hdup Hopen | h Hcand Hdup Hopen Hsym
       | h gp Hcand Hdup Hopen Hsym Hzero | h gp Hcand Hdup Hopen Hsym Hnz ];
    simpl plugin_list; rewrite Hcand; simpl andb.
  - split; [tauto | intros [H | [_ H]]; [exact H | discriminate]].
  - apply check_if_plugin_exists_from_In in Hdup.
    split; [tauto | intros [H | [-> _]]; assumption].
  - rewrite Hopen. split; [tauto | intros [H | [_ H]]; [exact H | discriminate]].
  - rewrite Hopen, Hsym.
    split; [tauto | intros [H | [_ H]]; [exact H | discriminate]].
  - rewrite Hopen, Hsym.
    assert (Hex : existsb (fun ty => callback ty h) (plugin_types st) = false).
    { apply not_true_is_false. intro Hex.
      apply (classified_nonzero_iff st h fname gp Hwf) in Hex. contradiction. }
    rewrite Hex. split; [tauto | intros [H | [_ H]]; [exact H | discriminate]].
  - rewrite Hopen, Hsym.
    apply (classified_nonzero_iff st h fname gp Hwf) in Hnz. rewrite Hnz.
    rewrite map_app, in_app_iff. unfold classified. simpl.
    rewrite classify_name. simpl. split.
    + intros [H | [H | []]]; [now left | right; auto].
    + intros [H | [-> _]]; [now left | right; now left].
Qed.

Lemma scan_loop_names (E : env) (dirname : string) (mode : plugin_load_failure_mode)
    (entries : list string) (st : state) (x : string) :
  types_wf st ->
  In x (map name
          (plugin_list (exec (foreach entries (scan_entry E dirname mode)) st)))
  <-> In x (map name (plugin_list st))
      \/ (In x entries /\ module_accepted E (plugin_types st) dirname x = true).
Proof.
  revert st. induction entries as [|fname entries IH]; intros st Hwf.
  - simpl. tauto.
  - rewrite exec_foreach_cons.
    destruct (appends_only_types (scan_entry E dirname mode fname) st
                (appends_only_scan_entry E dirname mode fname)) as [Hty Hctr].
    assert (Hwf' : types_wf (exec (scan_entry E dirname mode fname) st))
      by (unfold types_wf; now rewrite Hty, Hctr).
    rewrite (IH _ Hwf'), Hty, (scan_entry_names E dirname mode fname st x Hwf).
    simpl. split.
    + intros [[H | [-> H]] | [H1 H2]]; auto.
    + intros [H | [[<- | H1] H2]]; auto.
Qed.

(** X24: in a state a process can reach, scanning a directory that can be
    read registers exactly the new names among its entries that are module
    files the loader opens, that have a [version] symbol and that some
    registered type accepts: afterwards a name is in the chain exactly when
    it was before or is such an entry. *)
Theorem directory_scan_registers_accepted_modules (E : env) (dirname : string)
    (mode : plugin_load_failure_mode) (entries : list string) (st : state)
    (x : string) :
  reachable st ->
  g_file_test_EXISTS E dirname = true ->
  g_file_test_IS_DIR E dirname = true ->
  ws_dir_open E dirname = Some entries ->
  In x (map name (plugin_list (exec (plugins_scan_dir E dirname mode) st)))
  <-> In x (map name (plugin_list st))
      \/ (In x entries /\ module_accepted E (plugin_types st) dirname x = true).
Proof.
  intros Hreach Hex Hdir Hopen. apply reachable_types_wf in Hreach.
  unfold plugins_scan_dir. rewrite exec_seq, Hex, Hdir, Hopen. simpl.
  rewrite scan_loop_names by exact Hreach. reflexivity.
Qed.

Lemma directory_scan_registers_accepted_modules_witness :
  map name
    (plugin_list (exec (plugins_scan_dir env_mixed "/usr/lib/wireshark/plugins/2.4"
                          DONT_REPORT_LOAD_FAILURE) st_picky_type))
  = ["mate.so"; "docsis.so"]%string
  /\ In "docsis.so"%string
       (map name
          (plugin_list (exec (plugins_scan_dir env_mixed "/usr/lib/wireshark/plugins/2.4"
                                DONT_REPORT_LOAD_FAILURE) st_picky_type))).
Proof.
  split; [vm_compute; reflexivity|].
  apply (directory_scan_registers_accepted_modules env_mixed
           "/usr/lib/wireshark/plugins/2.4" DONT_REPORT_LOAD_FAILURE
           ["README.txt"; "mate.so"; "bar.so"; "docsis.so"]%string st_picky_type
           "docsis.so"
           (reach_call _ (call_add_plugin_type "dissector" (fun h => negb (N.eqb h 8)))
              reach_init)
           eq_refl eq_refl eq_refl).
  right. split; [simpl; tauto | vm_compute; reflexivity].
Defined.
